(** * portal.capstone.models: the simulator's scheduling core

    A shallow embedding of [src/portal/capstone/models.py] (the Django models
    [StudentApp], [Simulator], [Datapoint], [DueDatapoint] and the methods
    [Simulator.start], [Simulator.create_due_datapoints],
    [Simulator.add_student_app], [Simulator.reset]) and the properties of the
    scheduling core established on it.

    Conventions of the embedding.
    - A [datetime] is an instant, counted in microseconds (the resolution of
      Python's [datetime]); a [timedelta] is a signed number of microseconds.
      The year 1..9999 range limit of [datetime] is not represented.
    - Python floats ([total_seconds()], [PRODUCER_INTERVAL / ...]) are
      represented by exact rationals: rounding of binary64 is not represented,
      division by zero ([ZeroDivisionError]) is.  The comparison of the
      capacity check is therefore the exact one, and binary64 can decide
      otherwise when the exact figure is within rounding of [BLOCK_SIZE];
      what is stated about the check below takes its outcome as given, or
      rests on the sign of the figure or on its growth with the load.
    - Rows of a table are kept in a list, in primary-key order; a queryset
      without [order_by] is read in that order.  Foreign keys are the
      primary key of the row they point to.
    - Django runs in autocommit mode in this code (there is no
      [transaction.atomic]): what a method wrote before it raised stays
      written.  A method is therefore a function from the world to an
      outcome (a value or the exception raised) and the world it leaves. *)

From Stdlib Require Import ZArith QArith List String Ascii Bool Lia.
Import ListNotations.
Open Scope Z_scope.

(** ** Python values *)

Module Py.

Definition datetime := Z.
Definition timedelta := Z.

(** The exceptions the embedded code can raise.  [RuntimeError] carries the
    two figures the source formats into its message. *)
Inductive exn : Type :=
| TypeError
| ZeroDivisionError
| ValueError
| KeyError
| IndexError
| RuntimeError (required : Q) (consumed : Z).

Inductive outcome (A : Type) : Type :=
| Return (a : A)
| Raise (e : exn).
Arguments Return {A} a.
Arguments Raise {A} e.

(** [timedelta / int]: the quotient rounded to the nearest microsecond,
    ties to even (CPython's [_divide_and_round]); [Z.div] and [Z.modulo]
    are Python's floor [divmod]. *)
Definition divide_and_round (a b : Z) : Z :=
  let q := a / b in
  let r := 2 * (a mod b) in
  let greater_than_half := if 0 <? b then b <? r else r <? b in
  if greater_than_half || ((r =? b) && (q mod 2 =? 1)) then q + 1 else q.

(** [timedelta.total_seconds()]. *)
Definition total_seconds (d : timedelta) : Q := inject_Z d / inject_Z 1000000.

(** Python's [<] on numbers, as a boolean. *)
Definition Qltb (x y : Q) : bool := negb (Qle_bool y x).

(** A field name made of digits only: a positional index. *)
Fixpoint all_digits (s : string) : bool :=
  match s with
  | EmptyString => true
  | String c rest =>
      Nat.leb 48 (nat_of_ascii c) && Nat.leb (nat_of_ascii c) 57
      && all_digits rest
  end.

(** [template.format(app_name=...)].  Literal text is copied, [{{] and
    [}}] stand for one brace, [{app_name}] is replaced by the argument.  A
    lone brace raises [ValueError]; [{}] and a field that is a number, such
    as [{0}], raise [IndexError] (there is no positional argument); any
    other field name raises [KeyError].  Conversions, format specifications
    and attribute or index lookups inside a field are not represented: they
    fall under [KeyError]. *)
Inductive format_mode : Type :=
| Literal
| AfterOpen
| InField (name : string)
| AfterClose.

Definition prepend (c : ascii) (r : outcome string) : outcome string :=
  match r with
  | Return s => Return (String c s)
  | Raise e => Raise e
  end.

Definition prepend_string (p : string) (r : outcome string) : outcome string :=
  match r with
  | Return s => Return (p ++ s)%string
  | Raise e => Raise e
  end.

Fixpoint format_from (mode : format_mode) (template app_name : string)
  : outcome string :=
  match template with
  | EmptyString =>
      match mode with
      | Literal => Return EmptyString
      | _ => Raise ValueError
      end
  | String c rest =>
      match mode with
      | Literal =>
          if Ascii.eqb c "{" then format_from AfterOpen rest app_name
          else if Ascii.eqb c "}" then format_from AfterClose rest app_name
          else prepend c (format_from Literal rest app_name)
      | AfterOpen =>
          if Ascii.eqb c "{" then prepend "{" (format_from Literal rest app_name)
          else if Ascii.eqb c "}" then Raise IndexError
          else format_from (InField (String c EmptyString)) rest app_name
      | InField name =>
          if Ascii.eqb c "}" then
            if String.eqb name "app_name"
            then prepend_string app_name (format_from Literal rest app_name)
            else if all_digits name then Raise IndexError
            else Raise KeyError
          else if Ascii.eqb c "{" then Raise ValueError
          else format_from (InField (name ++ String c EmptyString)) rest app_name
      | AfterClose =>
          if Ascii.eqb c "}" then prepend "}" (format_from Literal rest app_name)
          else Raise ValueError
      end
  end.

Definition format (template app_name : string) : outcome string :=
  format_from Literal template app_name.

End Py.
Import Py.

(** ** The models *)

Module StudentApp.
Record t : Type := Build {
  capstone : Z;
  student : Z;
  app_name : string
}.
End StudentApp.

Module Simulator.
Record t : Type := Build {
  id : Z;
  capstone : Z;
  name : string;
  started : option datetime;
  ends : option datetime;
  interval : option timedelta;
  endpoint : string;
  status : string
}.

Definition with_started (v : option datetime) (s : t) : t :=
  Build (id s) (capstone s) (name s) v (ends s) (interval s) (endpoint s) (status s).
Definition with_interval (v : option timedelta) (s : t) : t :=
  Build (id s) (capstone s) (name s) (started s) (ends s) v (endpoint s) (status s).
Definition with_status (v : string) (s : t) : t :=
  Build (id s) (capstone s) (name s) (started s) (ends s) (interval s) (endpoint s) v.
End Simulator.

Module Datapoint.
Record t : Type := Build {
  id : Z;
  simulator : Z;
  data : string
}.
End Datapoint.

Module DueDatapoint.
Record t : Type := Build {
  simulator : Z;
  url : string;
  datapoint : Z;
  student : Z;
  due : option datetime;
  state : string;
  response_content : string;
  response_exception : option string;
  response_traceback : option string;
  response_elapsed : option Q;
  response_status : option Z;
  response_timeout : bool
}.

(** [DueDatapoint(simulator=..., datapoint=..., student=..., due=...,
    url=...)]: the other fields take the defaults of the model. *)
Definition create (simulator datapoint student : Z) (due : datetime)
  (url : string) : t :=
  Build simulator url datapoint student (Some due) "due" EmptyString None None None None false.
End DueDatapoint.

(** [django.conf.settings]: the two values the code reads. *)
Module Settings.
Record t : Type := Build {
  PRODUCER_INTERVAL : Q;
  BLOCK_SIZE : Z
}.
End Settings.

(** The database: one list of rows per table. *)
Module DB.
Record t : Type := Build {
  simulators : list Simulator.t;
  student_apps : list StudentApp.t;
  datapoints : list Datapoint.t;
  due_datapoints : list DueDatapoint.t
}.

Definition with_simulators (v : list Simulator.t) (d : t) : t :=
  Build v (student_apps d) (datapoints d) (due_datapoints d).
Definition with_due_datapoints (v : list DueDatapoint.t) (d : t) : t :=
  Build (simulators d) (student_apps d) (datapoints d) v.
End DB.

(** ** The world a method runs in *)

(** [self] is the [Simulator] instance in memory, [db] the database, [clock]
    what [datetime.now(timezone.utc)] answers. *)
Record World : Type := MkWorld {
  self : Simulator.t;
  db : DB.t;
  clock : datetime
}.

Definition with_self (s : Simulator.t) (w : World) : World :=
  MkWorld s (db w) (clock w).
Definition with_db (d : DB.t) (w : World) : World :=
  MkWorld (self w) d (clock w).
Definition with_clock (c : datetime) (w : World) : World :=
  MkWorld (self w) (db w) c.

Definition M (A : Type) : Type := World -> outcome A * World.

Definition ret {A : Type} (a : A) : M A := fun w => (Return a, w).

Definition raise {A : Type} (e : exn) : M A := fun w => (Raise e, w).

Definition bind {A B : Type} (m : M A) (k : A -> M B) : M B :=
  fun w =>
    match m w with
    | (Return a, w') => k a w'
    | (Raise e, w') => (Raise e, w')
    end.

Declare Scope py_scope.
Delimit Scope py_scope with py.
Notation "x <- m ;; k" := (bind m (fun x => k))
  (at level 100, m at next level, right associativity) : py_scope.
Notation "m ;; k" := (bind m (fun _ => k))
  (at level 100, right associativity) : py_scope.
Open Scope py_scope.

Definition lift {A : Type} (r : outcome A) : M A := fun w => (r, w).

(** [for x in xs: body(x)] *)
Fixpoint for_each {A : Type} (xs : list A) (body : A -> M unit) : M unit :=
  match xs with
  | [] => ret tt
  | x :: rest => body x ;; for_each rest body
  end.

(** *** Primitive actions *)

Definition get_self : M Simulator.t := fun w => (Return (self w), w).

Definition modify_self (f : Simulator.t -> Simulator.t) : M unit :=
  fun w => (Return tt, with_self (f (self w)) w).

Definition datetime_now : M datetime := fun w => (Return (clock w), w).

(** [a - b] on two datetimes, either of which may be [None]. *)
Definition datetime_sub (a b : option datetime) : M timedelta :=
  match a, b with
  | Some x, Some y => ret (x - y)
  | _, _ => raise TypeError
  end.

(** [d / n] for a timedelta and an int. *)
Definition timedelta_div (d : timedelta) (n : Z) : M timedelta :=
  if n =? 0 then raise ZeroDivisionError else ret (divide_and_round d n).

(** [x / y] for a number and a float. *)
Definition number_div (x y : Q) : M Q :=
  if Qeq_bool y 0 then raise ZeroDivisionError else ret (x / y)%Q.

(** [logger.critical()]: the call passes no message, and [Logger.critical]
    requires one. *)
Definition logger_critical_no_msg : M unit := raise TypeError.

(** [count()] of a queryset. *)
Definition count {A : Type} (rows : list A) : Z := Z.of_nat (List.length rows).

(** [Model.save()] for the simulator: the row with this primary key is
    replaced, or the row is inserted. *)
Fixpoint save_row (s : Simulator.t) (rows : list Simulator.t) : list Simulator.t :=
  match rows with
  | [] => [s]
  | r :: rest =>
      if Simulator.id r =? Simulator.id s then s :: rest
      else r :: save_row s rest
  end.

Definition save : M unit :=
  fun w => (Return tt,
            with_db (DB.with_simulators (save_row (self w) (DB.simulators (db w))) (db w)) w).

(** The [related_name='due_datapoints'] manager: the due rows of a simulator. *)
Definition of_simulator (sid : Z) (d : DueDatapoint.t) : bool :=
  DueDatapoint.simulator d =? sid.

(** [self.due_datapoints.all().delete()] *)
Definition due_datapoints_delete : M unit :=
  fun w =>
    (Return tt,
     with_db (DB.with_due_datapoints
                (filter (fun d => negb (of_simulator (Simulator.id (self w)) d))
                        (DB.due_datapoints (db w)))
                (db w)) w).

(** [self.datapoints.all()] *)
Definition datapoints_all : M (list Datapoint.t) :=
  fun w =>
    (Return (filter (fun p => Datapoint.simulator p =? Simulator.id (self w))
                    (DB.datapoints (db w))), w).

(** [StudentApp.objects.filter(capstone=self.capstone).exclude(app_name='')] *)
Definition eligible (cid : Z) (a : StudentApp.t) : bool :=
  (StudentApp.capstone a =? cid) && negb (String.eqb (StudentApp.app_name a) EmptyString).

Definition student_apps_query : M (list StudentApp.t) :=
  fun w =>
    (Return (filter (eligible (Simulator.capstone (self w)))
                    (DB.student_apps (db w))), w).

(** [DueDatapoint.objects.bulk_create(rows)] *)
Definition bulk_create (rows : list DueDatapoint.t) : M unit :=
  fun w =>
    (Return tt,
     with_db (DB.with_due_datapoints (DB.due_datapoints (db w) ++ rows) (db w)) w).

(** ** The methods of [Simulator] *)

(** The loop of [add_student_app]: one row per datapoint, [due += interval]
    after each. *)
Fixpoint due_datapoints_loop (sid : Z) (student : Z) (url : string)
  (interval : timedelta) (datapoints : list Datapoint.t) (due : datetime)
  : list DueDatapoint.t :=
  match datapoints with
  | [] => []
  | datapoint :: rest =>
      DueDatapoint.create sid (Datapoint.id datapoint) student due url
      :: due_datapoints_loop sid student url interval rest (due + interval)
  end.

Definition add_student_app (student_app : StudentApp.t)
  (datapoints : list Datapoint.t) (starts : option datetime) : M unit :=
  due <- match starts with
         | Some t => ret t
         | None => datetime_now
         end ;;
  s <- get_self ;;
  window <- datetime_sub (Simulator.ends s) starts ;;
  interval <- timedelta_div window (count datapoints) ;;
  url <- lift (format (Simulator.endpoint s) (StudentApp.app_name student_app)) ;;
  bulk_create
    (due_datapoints_loop (Simulator.id s) (StudentApp.student student_app) url
                         interval datapoints due).

Section WithSettings.

Variable settings : Settings.t.

(** The figure compared with [BLOCK_SIZE]. *)
Definition required_requests_per_cycle (apps : Z) (interval : timedelta) : Q :=
  (inject_Z apps * (Settings.PRODUCER_INTERVAL settings / total_seconds interval))%Q.

Definition create_due_datapoints (starts : datetime) : M unit :=
  due_datapoints_delete ;;
  datapoints <- datapoints_all ;;
  student_apps <- student_apps_query ;;
  s <- get_self ;;
  window <- datetime_sub (Simulator.ends s) (Some starts) ;;
  interval <- timedelta_div window (count datapoints) ;;
  ratio <- number_div (Settings.PRODUCER_INTERVAL settings) (total_seconds interval) ;;
  let required := (inject_Z (count student_apps) * ratio)%Q in
  (if Qltb (inject_Z (Settings.BLOCK_SIZE settings)) required
   then logger_critical_no_msg ;;
        raise (RuntimeError required (Settings.BLOCK_SIZE settings))
   else ret tt) ;;
  modify_self (Simulator.with_interval (Some interval)) ;;
  save ;;
  for_each student_apps
    (fun student_app => add_student_app student_app datapoints (Some starts)).

Definition start : M unit :=
  s <- get_self ;;
  if String.eqb (Simulator.status s) "start" then
    now <- datetime_now ;;
    modify_self (Simulator.with_started (Some now)) ;;
    modify_self (Simulator.with_status "started") ;;
    save ;;
    create_due_datapoints now
  else ret tt.

End WithSettings.

Definition reset : M unit :=
  s <- get_self ;;
  if String.eqb (Simulator.status s) "reset" then
    due_datapoints_delete ;;
    modify_self (Simulator.with_status "stopped") ;;
    save
  else ret tt.

(** ** What is observed of a world *)

(** The datapoints of the run, the eligible enrollments of its capstone, the
    due rows of the run and the due rows of the other runs. *)
Definition run_datapoints (w : World) : list Datapoint.t :=
  filter (fun p => Datapoint.simulator p =? Simulator.id (self w))
         (DB.datapoints (db w)).

Definition run_student_apps (w : World) : list StudentApp.t :=
  filter (eligible (Simulator.capstone (self w))) (DB.student_apps (db w)).

Definition run_due (w : World) : list DueDatapoint.t :=
  filter (of_simulator (Simulator.id (self w))) (DB.due_datapoints (db w)).

Definition other_due (w : World) : list DueDatapoint.t :=
  filter (fun d => negb (of_simulator (Simulator.id (self w)) d))
         (DB.due_datapoints (db w)).

(** The world once the due rows of the run are deleted. *)
Definition after_delete (w : World) : World :=
  with_db (DB.with_due_datapoints (other_due w) (db w)) w.

(** The world once [self] is saved. *)
Definition after_save (w : World) : World :=
  with_db (DB.with_simulators (save_row (self w) (DB.simulators (db w))) (db w)) w.

(** The URL an enrollment resolves to (the empty string where [format]
    raises, in which case no row is created at all). *)
Definition resolved_url (run : Simulator.t) (p : StudentApp.t) : string :=
  match format (Simulator.endpoint run) (StudentApp.app_name p) with
  | Return u => u
  | Raise _ => EmptyString
  end.

(** The schedule in the words of the specification, section 4.2:
    [interval = (endTime - startTime) / count(dataPoints)] and, for each
    participant independently, the [i]-th data point is due at
    [startTime + i * interval]. *)
Definition generateSchedule (run : Simulator.t) (dataPoints : list Datapoint.t)
  (startTime endTime : datetime) (participants : list StudentApp.t)
  : list DueDatapoint.t :=
  let interval := divide_and_round (endTime - startTime) (count dataPoints) in
  flat_map
    (fun p =>
       map (fun ip : nat * Datapoint.t =>
              DueDatapoint.create (Simulator.id run) (Datapoint.id (snd ip))
                (StudentApp.student p)
                (startTime + Z.of_nat (fst ip) * interval)
                (resolved_url run p))
           (combine (seq 0 (List.length dataPoints)) dataPoints))
    participants.

(** The (participant, data point) pair of a due row. *)
Definition pair_of (d : DueDatapoint.t) : Z * Z :=
  (DueDatapoint.student d, DueDatapoint.datapoint d).

(** The capacity comparison of [create_due_datapoints], on the figures it is
    made on. *)
Definition capacity_exceeded (settings : Settings.t) (apps : Z)
  (interval : timedelta) : bool :=
  Qltb (inject_Z (Settings.BLOCK_SIZE settings))
       (required_requests_per_cycle settings apps interval).

(** The rows [add_student_app] creates for one enrollment. *)
Definition rows_for (run : Simulator.t) (dps : list Datapoint.t)
  (t : datetime) (iv : timedelta) (a : StudentApp.t) : list DueDatapoint.t :=
  due_datapoints_loop (Simulator.id run) (StudentApp.student a)
    (resolved_url run a) iv dps t.

Definition resolves (run : Simulator.t) (a : StudentApp.t) : Prop :=
  exists u, format (Simulator.endpoint run) (StudentApp.app_name a) = Return u.

(** The world a successful [create_due_datapoints] leaves. *)
Definition after_create (starts : datetime) (iv : timedelta) (w : World) : World :=
  MkWorld (Simulator.with_interval (Some iv) (self w))
          (DB.Build
             (save_row (Simulator.with_interval (Some iv) (self w))
                       (DB.simulators (db w)))
             (DB.student_apps (db w))
             (DB.datapoints (db w))
             (other_due w ++
              flat_map (rows_for (self w) (run_datapoints w) starts iv)
                       (run_student_apps w)))
          (clock w).

(** The world [start] hands to [create_due_datapoints]. *)
Definition after_mark_started (w : World) : World :=
  after_save
    (with_self (Simulator.with_status "started"
                  (Simulator.with_started (Some (clock w)) (self w))) w).

(** The claim of the specification on a capacity failure during [start],
    as a relation between the world before and the world after. *)
Definition transition_not_applied (w w' : World) : Prop :=
  Simulator.status (self w') = Simulator.status (self w) /\
  Simulator.started (self w') = Simulator.started (self w) /\
  Simulator.interval (self w') = Simulator.interval (self w) /\
  run_due w' = run_due w.

(** The world [reset] leaves on a run asked to reset. *)
Definition after_reset (w : World) : World :=
  after_save
    (with_self (Simulator.with_status "stopped" (self w)) (after_delete w)).

(** The due time of the row at a position of a list of due rows. *)
Definition due_at (rows : list DueDatapoint.t) (position : nat) : option datetime :=
  match nth_error rows position with
  | Some d => DueDatapoint.due d
  | None => None
  end.

(** The row of the simulators table that has the primary key of [self]:
    what reading the run back from the database gives. *)
Definition saved_row (w : World) : option Simulator.t :=
  find (fun r => Simulator.id r =? Simulator.id (self w))
       (DB.simulators (db w)).

(** A text without [{] and without [}]. *)
Fixpoint brace_free (s : string) : bool :=
  match s with
  | EmptyString => true
  | String c rest =>
      negb (Ascii.eqb c "{") && negb (Ascii.eqb c "}") && brace_free rest
  end.


(** ** Worlds used as concrete instances *)

Module Examples.

Definition minute : Z := 60000000.
Definition second : Z := 1000000.

(** The configuration of the specification's capacity example. *)
Definition settings : Settings.t := Settings.Build 5 100.

(** A run of capstone 1 over the window 00:00-00:40, asked to start. *)
Definition run : Simulator.t :=
  Simulator.Build 1 1 "run" None (Some (40 * minute)) None
    "https://{app_name}.herokuapp.com/predict" "start".

(** Two eligible enrollments, one without application, one of another
    capstone. *)
Definition enrollments : list StudentApp.t :=
  [ StudentApp.Build 1 7 "alpha"; StudentApp.Build 1 8 EmptyString;
    StudentApp.Build 1 9 "beta"; StudentApp.Build 2 7 "gamma" ].

(** Four datapoints of the run, one of another run. *)
Definition points : list Datapoint.t :=
  [ Datapoint.Build 11 1 "x"; Datapoint.Build 12 1 "y";
    Datapoint.Build 13 2 "q"; Datapoint.Build 14 1 "z";
    Datapoint.Build 15 1 "w" ].

(** A due row left by an earlier start of the run, and a row of run 2. *)
Definition stale : list DueDatapoint.t :=
  [ DueDatapoint.create 1 11 7 3 "old"; DueDatapoint.create 2 13 7 3 "other" ].

Definition world : World :=
  MkWorld run (DB.Build [run] enrollments points stale) 0.

(** The same run once started, and once asked to reset. *)
Definition started_world : World :=
  with_self (Simulator.with_status "started" run) world.

Definition reset_world : World :=
  with_self (Simulator.with_status "reset" run) world.


(** The same run without any eligible enrollment. *)
Definition no_apps_world : World :=
  MkWorld run
    (DB.Build [run] [StudentApp.Build 1 8 EmptyString; StudentApp.Build 2 7 "gamma"]
              points stale) 0.

(** No eligible enrollment, two datapoints, and a window of one
    microsecond that starts at the time of the clock. *)
Definition one_microsecond_world : World :=
  MkWorld (Simulator.Build 1 1 "run" None (Some 1) None
             "https://{app_name}.herokuapp.com/predict" "start")
          (DB.Build [] [StudentApp.Build 1 8 EmptyString]
                    [Datapoint.Build 11 1 "x"; Datapoint.Build 12 1 "y"] []) 0.

(** A configuration whose block size is negative. *)
Definition negative_block : Settings.t := Settings.Build 5 (-1).

(** One student enrolled twice in the capstone, one datapoint. *)
Definition twice_enrolled_world : World :=
  MkWorld run
    (DB.Build [run]
              [StudentApp.Build 1 7 "alpha"; StudentApp.Build 1 7 "alpha-v2"]
              [Datapoint.Build 11 1 "x"] []) 0.

(** The overloaded case of the specification's capacity example: 210
    eligible enrollments, one datapoint every 10 seconds, a producer
    interval of 5 seconds and a block size of 100. *)
Definition crowd : list StudentApp.t :=
  map (fun i => StudentApp.Build 1 (Z.of_nat i) "app") (seq 1 210).

Definition overloaded_run : Simulator.t :=
  Simulator.Build 1 1 "run" None (Some (10 * second)) (Some 77)
    "https://{app_name}.herokuapp.com/predict" "start".

Definition overloaded_world : World :=
  MkWorld overloaded_run
          (DB.Build [overloaded_run] crowd [Datapoint.Build 11 1 "x"] stale) 0.

(** The run asked to start an hour after its end. *)
Definition past_world : World := with_clock (100 * minute) world.

(** The run with an endpoint that has no placeholder. *)
Definition fixed_endpoint_world : World :=
  with_self
    (Simulator.Build 1 1 "run" None (Some (40 * minute)) None
       "https://example.org/predict" "start")
    world.

(** A configuration with room for ten million requests per cycle. *)
Definition roomy : Settings.t := Settings.Build 5 10000000.

(** A run asked to start 15 microseconds before its end, with ten
    datapoints and one eligible enrollment. *)
Definition short_world : World :=
  MkWorld (Simulator.Build 1 1 "run" None (Some 15) None
             "https://{app_name}.herokuapp.com/predict" "start")
          (DB.Build [] [StudentApp.Build 1 7 "alpha"]
             (map (fun i => Datapoint.Build (Z.of_nat i) 1 "x") (seq 1 10)) [])
          0.

End Examples.

(** ** Unfolding the methods *)

Lemma total_seconds_zero (d : timedelta) :
  Qeq_bool (total_seconds d) 0 = (d =? 0).
Proof.
  unfold total_seconds, Qeq_bool, Qdiv, Qmult, Qinv, inject_Z. simpl.
  replace (d * 1 * 1) with d by lia.
  destruct d; reflexivity.
Qed.

(** [add_student_app] with an explicit [starts], path by path. *)
Lemma add_student_app_unfold (a : StudentApp.t) (dps : list Datapoint.t)
  (t : datetime) (w : World) :
  add_student_app a dps (Some t) w =
  match Simulator.ends (self w) with
  | None => (Raise TypeError, w)
  | Some e =>
      if count dps =? 0 then (Raise ZeroDivisionError, w)
      else
        match format (Simulator.endpoint (self w)) (StudentApp.app_name a) with
        | Raise x => (Raise x, w)
        | Return url =>
            (Return tt,
             with_db (DB.with_due_datapoints
                        (DB.due_datapoints (db w) ++
                         due_datapoints_loop (Simulator.id (self w))
                           (StudentApp.student a) url
                           (divide_and_round (e - t) (count dps)) dps t)
                        (db w)) w)
        end
  end.
Proof.
  unfold add_student_app, bind, ret, get_self, datetime_sub, timedelta_div,
    lift, bulk_create, raise.
  simpl.
  destruct (Simulator.ends (self w)) as [e|]; simpl; [|reflexivity].
  destruct (count dps =? 0); simpl; [reflexivity|].
  destruct (format _ _); reflexivity.
Qed.

(** The loop of [add_student_app] in closed form. *)
Lemma due_datapoints_loop_from (sid st : Z) (url : string) (iv : timedelta)
  (dps : list Datapoint.t) (t : datetime) (k : nat) :
  due_datapoints_loop sid st url iv dps (t + Z.of_nat k * iv) =
  map (fun ip : nat * Datapoint.t =>
         DueDatapoint.create sid (Datapoint.id (snd ip)) st
           (t + Z.of_nat (fst ip) * iv) url)
      (combine (seq k (List.length dps)) dps).
Proof.
  revert k. induction dps as [|dp rest IH]; intro k; simpl.
  - reflexivity.
  - f_equal.
    rewrite <- IH. f_equal. lia.
Qed.

Lemma due_datapoints_loop_closed (sid st : Z) (url : string) (iv : timedelta)
  (dps : list Datapoint.t) (t : datetime) :
  due_datapoints_loop sid st url iv dps t =
  map (fun ip : nat * Datapoint.t =>
         DueDatapoint.create sid (Datapoint.id (snd ip)) st
           (t + Z.of_nat (fst ip) * iv) url)
      (combine (seq 0 (List.length dps)) dps).
Proof.
  rewrite <- due_datapoints_loop_from. f_equal. simpl. lia.
Qed.

(** The loop of [create_due_datapoints] never touches [self]. *)
Lemma for_each_add_self (dps : list Datapoint.t) (t : datetime)
  (apps : list StudentApp.t) :
  forall w r w',
    for_each apps (fun a => add_student_app a dps (Some t)) w = (r, w') ->
    self w' = self w.
Proof.
  induction apps as [|a rest IH]; intros w r w' H; simpl in H.
  - unfold ret in H. now inversion H.
  - unfold bind in H. rewrite add_student_app_unfold in H.
    destruct (Simulator.ends (self w)) as [e|]; [|now inversion H].
    destruct (count dps =? 0); [now inversion H|].
    destruct (format _ _) as [u|x]; [|now inversion H].
    apply IH in H. exact H.
Qed.

(** When every enrollment resolves to a URL the loop succeeds and appends the
    rows of each enrollment in turn. *)
Lemma for_each_add_ok (dps : list Datapoint.t) (t e : datetime)
  (apps : list StudentApp.t) :
  forall w,
    Simulator.ends (self w) = Some e ->
    count dps <> 0 ->
    Forall (resolves (self w)) apps ->
    for_each apps (fun a => add_student_app a dps (Some t)) w =
    (Return tt,
     with_db (DB.with_due_datapoints
                (DB.due_datapoints (db w) ++
                 flat_map (rows_for (self w) dps t
                             (divide_and_round (e - t) (count dps))) apps)
                (db w)) w).
Proof.
  induction apps as [|a rest IH]; intros w He Hn Hall; simpl.
  - unfold ret. rewrite app_nil_r. destruct w as [s [a b c d] k]. reflexivity.
  - inversion Hall as [|? ? [u Hu] Hrest]; subst.
    unfold bind. rewrite add_student_app_unfold, He.
    apply Z.eqb_neq in Hn. rewrite Hn, Hu.
    rewrite IH; simpl; try assumption.
    + unfold rows_for at 2, resolved_url. rewrite Hu.
      rewrite <- app_assoc. reflexivity.
    + now apply Z.eqb_neq.
Qed.

(** When the loop succeeds every enrollment resolved to a URL. *)
Lemma for_each_add_inv (dps : list Datapoint.t) (t : datetime)
  (apps : list StudentApp.t) :
  forall w w',
    for_each apps (fun a => add_student_app a dps (Some t)) w = (Return tt, w') ->
    Forall (resolves (self w)) apps.
Proof.
  induction apps as [|a rest IH]; intros w w' H; simpl in H.
  - constructor.
  - unfold bind in H. rewrite add_student_app_unfold in H.
    destruct (Simulator.ends (self w)) as [e|]; [|discriminate H].
    destruct (count dps =? 0); [discriminate H|].
    destruct (format _ _) as [u|x] eqn:Hu; [|discriminate H].
    constructor.
    + now exists u.
    + apply IH in H. exact H.
Qed.

(** [create_due_datapoints], path by path. *)
Lemma create_due_datapoints_unfold (settings : Settings.t) (starts : datetime)
  (w : World) :
  create_due_datapoints settings starts w =
  match Simulator.ends (self w) with
  | None => (Raise TypeError, after_delete w)
  | Some e =>
      let n := count (run_datapoints w) in
      if n =? 0 then (Raise ZeroDivisionError, after_delete w)
      else
        let iv := divide_and_round (e - starts) n in
        if iv =? 0 then (Raise ZeroDivisionError, after_delete w)
        else if capacity_exceeded settings (count (run_student_apps w)) iv
        then (Raise TypeError, after_delete w)
        else
          for_each (run_student_apps w)
            (fun a => add_student_app a (run_datapoints w) (Some starts))
            (after_save
               (with_self (Simulator.with_interval (Some iv) (self w))
                          (after_delete w)))
  end.
Proof.
  unfold create_due_datapoints, bind, ret, get_self, datetime_sub,
    timedelta_div, number_div, due_datapoints_delete, datapoints_all,
    student_apps_query, modify_self, save, logger_critical_no_msg, raise.
  simpl.
  fold (other_due w). fold (after_delete w).
  fold (run_datapoints w). fold (run_student_apps w).
  destruct (Simulator.ends (self w)) as [e|]; simpl; [|reflexivity].
  destruct (count (run_datapoints w) =? 0); simpl; [reflexivity|].
  rewrite total_seconds_zero.
  destruct (divide_and_round _ _ =? 0); simpl; [reflexivity|].
  unfold capacity_exceeded, required_requests_per_cycle.
  destruct (Qltb _ _); simpl; reflexivity.
Qed.

(** ** Lists of due rows *)

Lemma rows_for_simulator (run : Simulator.t) (dps : list Datapoint.t)
  (iv : timedelta) (a : StudentApp.t) :
  forall t d, In d (rows_for run dps t iv a) ->
              DueDatapoint.simulator d = Simulator.id run.
Proof.
  unfold rows_for.
  induction dps as [|dp rest IH]; intros t d Hd; simpl in Hd.
  - contradiction.
  - destruct Hd as [<-|Hd]; [reflexivity|]. eapply IH; eassumption.
Qed.

Lemma rows_for_length (run : Simulator.t) (dps : list Datapoint.t)
  (iv : timedelta) (a : StudentApp.t) :
  forall t, List.length (rows_for run dps t iv a) = List.length dps.
Proof.
  unfold rows_for.
  induction dps as [|dp rest IH]; intro t; simpl; [reflexivity|].
  now rewrite IH.
Qed.

Lemma rows_for_pairs (run : Simulator.t) (dps : list Datapoint.t)
  (iv : timedelta) (a : StudentApp.t) :
  forall t, map pair_of (rows_for run dps t iv a) =
            map (fun dp => (StudentApp.student a, Datapoint.id dp)) dps.
Proof.
  unfold rows_for.
  induction dps as [|dp rest IH]; intro t; simpl; [reflexivity|].
  now rewrite IH.
Qed.

Lemma rows_for_nth (run : Simulator.t) (iv : timedelta) (a : StudentApp.t) :
  forall dps t i dp,
    nth_error dps i = Some dp ->
    nth_error (rows_for run dps t iv a) i =
    Some (DueDatapoint.create (Simulator.id run) (Datapoint.id dp)
            (StudentApp.student a) (t + Z.of_nat i * iv) (resolved_url run a)).
Proof.
  unfold rows_for.
  induction dps as [|p rest IH]; intros t i dp Hi.
  - destruct i; discriminate Hi.
  - destruct i as [|i]; cbn [nth_error due_datapoints_loop] in *.
    + inversion Hi; subst.
      replace (t + Z.of_nat 0 * iv) with t by (simpl; lia). reflexivity.
    + rewrite (IH _ _ _ Hi).
      replace (t + iv + Z.of_nat i * iv) with (t + Z.of_nat (S i) * iv) by lia.
      reflexivity.
Qed.

Lemma rows_for_with_interval (o : option timedelta) (run : Simulator.t)
  (dps : list Datapoint.t) (t : datetime) (iv : timedelta) (a : StudentApp.t) :
  rows_for (Simulator.with_interval o run) dps t iv a = rows_for run dps t iv a.
Proof. reflexivity. Qed.

(** A batch of rows of one run, filtered by run. *)
Lemma filter_batch_same (run : Simulator.t) (dps : list Datapoint.t)
  (t : datetime) (iv : timedelta) (apps : list StudentApp.t) :
  filter (of_simulator (Simulator.id run)) (flat_map (rows_for run dps t iv) apps)
  = flat_map (rows_for run dps t iv) apps.
Proof.
  apply forallb_filter_id, forallb_forall.
  intros d Hd. apply in_flat_map in Hd as [a [_ Hd]].
  unfold of_simulator. apply Z.eqb_eq. eapply rows_for_simulator; eassumption.
Qed.

Lemma filter_batch_other (run : Simulator.t) (dps : list Datapoint.t)
  (t : datetime) (iv : timedelta) (apps : list StudentApp.t) :
  filter (fun d => negb (of_simulator (Simulator.id run) d))
         (flat_map (rows_for run dps t iv) apps) = [].
Proof.
  induction apps as [|a rest IH]; simpl; [reflexivity|].
  rewrite filter_app, IH, app_nil_r.
  assert (H : forall l, (forall d, In d l -> DueDatapoint.simulator d = Simulator.id run) ->
                        filter (fun d => negb (of_simulator (Simulator.id run) d)) l = []).
  { induction l as [|d l IHl]; intro Hl; simpl; [reflexivity|].
    unfold of_simulator at 1. rewrite (Hl d (or_introl eq_refl)), Z.eqb_refl. simpl.
    apply IHl. intros; apply Hl; now right. }
  apply H. intros d Hd. eapply rows_for_simulator; eassumption.
Qed.

Lemma filter_run_of_other (sid : Z) (l : list DueDatapoint.t) :
  filter (of_simulator sid) (filter (fun d => negb (of_simulator sid d)) l) = [].
Proof.
  induction l as [|d l IH]; simpl; [reflexivity|].
  destruct (of_simulator sid d) eqn:E; simpl; [exact IH|].
  now rewrite E.
Qed.

Lemma filter_other_of_other (sid : Z) (l : list DueDatapoint.t) :
  filter (fun d => negb (of_simulator sid d))
         (filter (fun d => negb (of_simulator sid d)) l)
  = filter (fun d => negb (of_simulator sid d)) l.
Proof.
  induction l as [|d l IH]; simpl; [reflexivity|].
  destruct (of_simulator sid d) eqn:E; simpl; [exact IH|].
  rewrite E. simpl. now rewrite IH.
Qed.

Lemma flat_map_length_const {A B : Type} (f : A -> list B) (n : nat)
  (l : list A) :
  (forall a, List.length (f a) = n) ->
  List.length (flat_map f l) = (List.length l * n)%nat.
Proof.
  intro Hf. induction l as [|a l IH]; simpl; [reflexivity|].
  rewrite length_app, Hf, IH. reflexivity.
Qed.

Lemma flat_map_nth_const {A B : Type} (f : A -> list B) (n : nat) :
  (forall a, List.length (f a) = n) ->
  forall (l : list A) (k i : nat) (a : A),
    nth_error l k = Some a -> (i < n)%nat ->
    nth_error (flat_map f l) (k * n + i) = nth_error (f a) i.
Proof.
  intros Hf l. induction l as [|x l IH]; intros k i a Hk Hi.
  - destruct k; discriminate Hk.
  - destruct k as [|k]; simpl in *.
    + inversion Hk; subst. apply nth_error_app1. now rewrite Hf.
    + rewrite nth_error_app2 by (rewrite Hf; lia).
      rewrite Hf. replace (n + k * n + i - n)%nat with (k * n + i)%nat by lia.
      now apply IH.
Qed.

(** The rows the code creates are the schedule of the specification. *)
Lemma batch_is_generateSchedule (run : Simulator.t) (dps : list Datapoint.t)
  (t e : datetime) (apps : list StudentApp.t) :
  flat_map (rows_for run dps t (divide_and_round (e - t) (count dps))) apps
  = generateSchedule run dps t e apps.
Proof.
  unfold generateSchedule. apply flat_map_ext. intro a.
  unfold rows_for. apply due_datapoints_loop_closed.
Qed.

(** ** Rounded division *)

Lemma divide_and_round_near (a b : Z) :
  0 < b -> 2 * Z.abs (b * divide_and_round a b - a) <= b.
Proof.
  intro Hb. unfold divide_and_round.
  pose proof (Z.div_mod a b ltac:(lia)) as Hdm.
  pose proof (Z.mod_pos_bound a b Hb) as Hr.
  assert (Hlt : (0 <? b) = true) by (apply Z.ltb_lt; exact Hb).
  rewrite Hlt.
  set (q := a / b) in *. set (r := a mod b) in *.
  assert (Hup : b * (q + 1) - a = b - r) by (rewrite Hdm at 1; ring).
  assert (Hdown : b * q - a = - r) by (rewrite Hdm at 1; ring).
  clearbody q r.
  destruct (b <? 2 * r) eqn:Hgt; cbn [orb].
  - apply Z.ltb_lt in Hgt. rewrite Hup. lia.
  - apply Z.ltb_ge in Hgt.
    destruct ((2 * r =? b) && (q mod 2 =? 1)) eqn:Htie.
    + apply andb_true_iff in Htie as [Htie _]. apply Z.eqb_eq in Htie.
      rewrite Hup. lia.
    + rewrite Hdown. lia.
Qed.

Lemma divide_and_round_nonneg (a b : Z) :
  0 <= a -> 0 < b -> 0 <= divide_and_round a b.
Proof.
  intros Ha Hb. unfold divide_and_round.
  pose proof (Z.div_pos a b Ha Hb) as Hq.
  destruct (_ || _); lia.
Qed.

(** ** Outcomes of [create_due_datapoints] *)

Lemma create_due_datapoints_succeeds (settings : Settings.t) (starts e : datetime)
  (w : World) :
  Simulator.ends (self w) = Some e ->
  count (run_datapoints w) <> 0 ->
  divide_and_round (e - starts) (count (run_datapoints w)) <> 0 ->
  capacity_exceeded settings (count (run_student_apps w))
    (divide_and_round (e - starts) (count (run_datapoints w))) = false ->
  Forall (resolves (self w)) (run_student_apps w) ->
  create_due_datapoints settings starts w =
  (Return tt,
   after_create starts (divide_and_round (e - starts) (count (run_datapoints w))) w).
Proof.
  intros He Hn Hiv Hcap Hres.
  rewrite create_due_datapoints_unfold, He. cbv zeta.
  apply Z.eqb_neq in Hn, Hiv. rewrite Hn, Hiv, Hcap.
  rewrite (for_each_add_ok _ starts e); simpl; try assumption.
  - reflexivity.
  - now apply Z.eqb_neq.
Qed.

Lemma create_due_datapoints_Return (settings : Settings.t) (starts : datetime)
  (w w' : World) :
  create_due_datapoints settings starts w = (Return tt, w') ->
  exists e,
    Simulator.ends (self w) = Some e /\
    count (run_datapoints w) <> 0 /\
    divide_and_round (e - starts) (count (run_datapoints w)) <> 0 /\
    capacity_exceeded settings (count (run_student_apps w))
      (divide_and_round (e - starts) (count (run_datapoints w))) = false /\
    Forall (resolves (self w)) (run_student_apps w) /\
    w' = after_create starts
           (divide_and_round (e - starts) (count (run_datapoints w))) w.
Proof.
  intro H. pose proof H as H0.
  rewrite create_due_datapoints_unfold in H.
  destruct (Simulator.ends (self w)) as [e|] eqn:He; [|discriminate H].
  cbv zeta in H.
  destruct (count (run_datapoints w) =? 0) eqn:Hn; [discriminate H|].
  destruct (divide_and_round (e - starts) (count (run_datapoints w)) =? 0) eqn:Hiv;
    [discriminate H|].
  destruct (capacity_exceeded _ _ _) eqn:Hcap; [discriminate H|].
  apply for_each_add_inv in H. simpl in H.
  apply Z.eqb_neq in Hn, Hiv.
  exists e. repeat split; try assumption.
  rewrite (create_due_datapoints_succeeds settings starts e w) in H0
    by assumption.
  now inversion H0.
Qed.

(** The due rows of the run and of the other runs after a success. *)
Lemma run_due_after_create (starts : datetime) (iv : timedelta) (w : World) :
  run_due (after_create starts iv w)
  = flat_map (rows_for (self w) (run_datapoints w) starts iv) (run_student_apps w).
Proof.
  unfold run_due, after_create, other_due. simpl.
  rewrite filter_app, filter_run_of_other. simpl.
  apply filter_batch_same.
Qed.

Lemma other_due_after_create (starts : datetime) (iv : timedelta) (w : World) :
  other_due (after_create starts iv w) = other_due w.
Proof.
  unfold after_create, other_due. simpl.
  rewrite filter_app, filter_other_of_other, filter_batch_other.
  apply app_nil_r.
Qed.

Lemma run_due_after_delete (w : World) : run_due (after_delete w) = [].
Proof. unfold run_due, after_delete, other_due. simpl. apply filter_run_of_other. Qed.

Lemma other_due_after_delete (w : World) :
  other_due (after_delete w) = other_due w.
Proof.
  unfold after_delete, other_due. simpl. apply filter_other_of_other.
Qed.

(** [create_due_datapoints] starts by deleting: it does the same from a world
    whose due rows of the run are already gone. *)
Lemma create_due_datapoints_after_delete (settings : Settings.t)
  (starts : datetime) (w : World) :
  create_due_datapoints settings starts (after_delete w)
  = create_due_datapoints settings starts w.
Proof.
  rewrite !create_due_datapoints_unfold.
  assert (Hd : after_delete (after_delete w) = after_delete w).
  { unfold after_delete at 1. rewrite other_due_after_delete. reflexivity. }
  rewrite Hd. reflexivity.
Qed.

(** Whatever the outcome, [create_due_datapoints] changes at most the
    [interval] of [self]. *)
Lemma create_due_datapoints_self (settings : Settings.t) (starts : datetime)
  (w : World) (r : outcome unit) (w' : World) :
  create_due_datapoints settings starts w = (r, w') ->
  exists o, self w' = Simulator.with_interval o (self w).
Proof.
  intro H. rewrite create_due_datapoints_unfold in H.
  assert (Hsame : Simulator.with_interval (Simulator.interval (self w)) (self w)
                  = self w) by (destruct (self w); reflexivity).
  destruct (Simulator.ends (self w)) as [e|];
    [|inversion H; subst; exists (Simulator.interval (self w)); now rewrite Hsame].
  cbv zeta in H.
  destruct (_ =? 0);
    [inversion H; subst; exists (Simulator.interval (self w)); now rewrite Hsame|].
  destruct (_ =? 0);
    [inversion H; subst; exists (Simulator.interval (self w)); now rewrite Hsame|].
  destruct (capacity_exceeded _ _ _);
    [inversion H; subst; exists (Simulator.interval (self w)); now rewrite Hsame|].
  apply for_each_add_self in H. simpl in H. eexists; exact H.
Qed.

(** ** [start] and [reset] *)

Lemma save_row_In (s : Simulator.t) (rows : list Simulator.t) :
  In s (save_row s rows).
Proof.
  induction rows as [|r rest IH]; simpl; [now left|].
  destruct (Simulator.id r =? Simulator.id s); simpl; [now left|now right].
Qed.

Lemma start_unfold (settings : Settings.t) (w : World) :
  start settings w =
  if String.eqb (Simulator.status (self w)) "start"
  then create_due_datapoints settings (clock w) (after_mark_started w)
  else (Return tt, w).
Proof.
  unfold start, bind, get_self, datetime_now, modify_self, save, ret. simpl.
  destruct (String.eqb _ _); reflexivity.
Qed.

(** After [start], whatever its outcome, the status is not ['start']. *)
Lemma start_leaves_no_request (settings : Settings.t) (w : World)
  (r : outcome unit) (w' : World) :
  start settings w = (r, w') ->
  String.eqb (Simulator.status (self w')) "start" = false.
Proof.
  intro H. rewrite start_unfold in H.
  destruct (String.eqb (Simulator.status (self w)) "start") eqn:E.
  - apply create_due_datapoints_self in H as [o Ho].
    rewrite Ho. reflexivity.
  - inversion H; subst. exact E.
Qed.

(** C1, as stated, fails.  In the overloaded world of the specification's
    example (210 enrollments, required 105 > block size 100) [start] raises,
    and yet the status has moved from ['start'] to ['started'], the started
    timestamp is set and the due row the run had is gone. *)
Lemma start_capacity_failure_is_applied :
  capacity_exceeded Examples.settings
    (count (run_student_apps Examples.overloaded_world))
    (10 * Examples.second) = true /\
  exists x w',
    start Examples.settings Examples.overloaded_world = (Raise x, w') /\
    Simulator.status (self Examples.overloaded_world) = "start"%string /\
    Simulator.status (self w') = "started"%string /\
    Simulator.started (self Examples.overloaded_world) = None /\
    Simulator.started (self w') = Some 0 /\
    run_due Examples.overloaded_world = [DueDatapoint.create 1 11 7 3 "old"] /\
    run_due w' = [] /\
    ~ transition_not_applied Examples.overloaded_world w'.
Proof.
  split; [vm_compute; reflexivity|].
  eexists. eexists.
  split; [vm_compute; reflexivity|].
  repeat split; try (vm_compute; reflexivity).
  intros [Hs _]. vm_compute in Hs. discriminate Hs.
Qed.

(** C1, amended.  When the capacity check fails during a start transition
    an error propagates to the caller and the interval of the run is left
    as it was; the status is already ['started'] and the started timestamp
    already the current time, both saved; the due rows the run had are
    deleted; the due rows of the other runs are untouched. *)
Theorem start_capacity_failure (settings : Settings.t) (w : World) (e : datetime) :
  Simulator.status (self w) = "start"%string ->
  Simulator.ends (self w) = Some e ->
  count (run_datapoints w) <> 0 ->
  divide_and_round (e - clock w) (count (run_datapoints w)) <> 0 ->
  capacity_exceeded settings (count (run_student_apps w))
    (divide_and_round (e - clock w) (count (run_datapoints w))) = true ->
  exists x w',
    start settings w = (Raise x, w') /\
    Simulator.interval (self w') = Simulator.interval (self w) /\
    Simulator.status (self w') = "started"%string /\
    Simulator.started (self w') = Some (clock w) /\
    In (self w') (DB.simulators (db w')) /\
    run_due w' = [] /\
    other_due w' = other_due w.
Proof.
  intros Hst He Hn Hiv Hcap.
  exists TypeError, (after_delete (after_mark_started w)).
  split.
  - rewrite start_unfold, Hst. simpl String.eqb. cbv iota.
    rewrite create_due_datapoints_unfold.
    change (Simulator.ends (self (after_mark_started w)))
      with (Simulator.ends (self w)).
    rewrite He. cbv zeta.
    change (run_datapoints (after_mark_started w)) with (run_datapoints w).
    change (run_student_apps (after_mark_started w)) with (run_student_apps w).
    apply Z.eqb_neq in Hn, Hiv. rewrite Hn, Hiv, Hcap. reflexivity.
  - repeat split.
    + simpl. apply save_row_In.
    + apply run_due_after_delete.
    + rewrite other_due_after_delete. reflexivity.
Qed.

Lemma start_capacity_failure_witness :
  exists x w',
    start Examples.settings Examples.overloaded_world = (Raise x, w') /\
    Simulator.interval (self w') = Simulator.interval (self Examples.overloaded_world) /\
    Simulator.status (self w') = "started"%string /\
    Simulator.started (self w') = Some (clock Examples.overloaded_world) /\
    In (self w') (DB.simulators (db w')) /\
    run_due w' = [] /\
    other_due w' = other_due Examples.overloaded_world.
Proof.
  apply (start_capacity_failure Examples.settings Examples.overloaded_world
           (10 * Examples.second)).
  - reflexivity.
  - reflexivity.
  - vm_compute. discriminate.
  - vm_compute. discriminate.
  - vm_compute. reflexivity.
Defined.

(** ** The capacity check *)

Lemma Qltb_lt (x y : Q) : Qltb x y = true <-> (x < y)%Q.
Proof.
  unfold Qltb. rewrite negb_true_iff. split.
  - intro H. apply Qnot_le_lt. intro Hle.
    apply Qle_bool_iff in Hle. congruence.
  - intro H. destruct (Qle_bool y x) eqn:E; [|reflexivity].
    apply Qle_bool_iff in E. exfalso. exact (Qlt_not_le _ _ H E).
Qed.

(** What [create_due_datapoints] does when the comparison holds: the
    exception that leaves the method is the [TypeError] of the call
    [logger.critical()], the [raise RuntimeError(...)] after it is not
    reached. *)
Lemma capacity_failure_outcome (settings : Settings.t) (starts e : datetime)
  (w : World) :
  Simulator.ends (self w) = Some e ->
  count (run_datapoints w) <> 0 ->
  divide_and_round (e - starts) (count (run_datapoints w)) <> 0 ->
  capacity_exceeded settings (count (run_student_apps w))
    (divide_and_round (e - starts) (count (run_datapoints w))) = true ->
  create_due_datapoints settings starts w = (Raise TypeError, after_delete w).
Proof.
  intros He Hn Hiv Hcap.
  rewrite create_due_datapoints_unfold, He. cbv zeta.
  apply Z.eqb_neq in Hn, Hiv. now rewrite Hn, Hiv, Hcap.
Qed.

(** C2.  At the overloaded case of the specification's example (block size
    100, producer interval 5 s, cycle interval 10 s, 210 enrollments,
    required 105) [create_due_datapoints] does raise, but what it raises is
    the [TypeError] of [logger.critical()], not the [RuntimeError] that
    carries the required and the available figure. *)
Theorem capacity_error_is_TypeError :
  Qeq (required_requests_per_cycle Examples.settings
         (count (run_student_apps Examples.overloaded_world))
         (10 * Examples.second))
      (inject_Z 105) /\
  Settings.BLOCK_SIZE Examples.settings = 100 /\
  create_due_datapoints Examples.settings 0 Examples.overloaded_world
  = (Raise TypeError, after_delete Examples.overloaded_world) /\
  forall required consumed,
    fst (create_due_datapoints Examples.settings 0 Examples.overloaded_world)
    <> Raise (RuntimeError required consumed).
Proof.
  split; [vm_compute; reflexivity|].
  split; [reflexivity|].
  assert (H : create_due_datapoints Examples.settings 0 Examples.overloaded_world
              = (Raise TypeError, after_delete Examples.overloaded_world))
    by (vm_compute; reflexivity).
  split; [exact H|].
  intros required consumed. rewrite H. discriminate.
Qed.

(** ** Runs without datapoints, late joiners *)




(** C6.  [add_student_app] called without [starts] (the late joiner's call,
    where [due] falls back on the current time) raises [TypeError] on
    [self.ends - starts] and creates no row: the first due time is never
    the current time. *)
Theorem add_student_app_without_starts (student_app : StudentApp.t)
  (datapoints : list Datapoint.t) (w : World) :
  add_student_app student_app datapoints None w = (Raise TypeError, w).
Proof.
  unfold add_student_app, bind, datetime_now, get_self, datetime_sub, raise.
  simpl. destruct (Simulator.ends (self w)); reflexivity.
Qed.

(** With [starts] given, the rows are those of the one enrollment, appended
    to a table otherwise unchanged, the first of them due at [starts]. *)
Lemma add_student_app_with_starts (a : StudentApp.t) (dp : Datapoint.t)
  (dps : list Datapoint.t) (t e : datetime) (w : World) :
  Simulator.ends (self w) = Some e ->
  resolves (self w) a ->
  exists rest,
    add_student_app a (dp :: dps) (Some t) w =
    (Return tt,
     with_db (DB.with_due_datapoints
                (DB.due_datapoints (db w) ++
                 DueDatapoint.create (Simulator.id (self w)) (Datapoint.id dp)
                   (StudentApp.student a) t (resolved_url (self w) a) :: rest)
                (db w)) w) /\
    Forall (fun d => DueDatapoint.student d = StudentApp.student a) rest.
Proof.
  intros He [u Hu].
  rewrite add_student_app_unfold, He.
  assert (Hc : (count (dp :: dps) =? 0) = false)
    by (apply Z.eqb_neq; unfold count; simpl List.length; lia).
  rewrite Hc, Hu. unfold resolved_url. rewrite Hu.
  cbn [due_datapoints_loop]. eexists. split; [reflexivity|].
  generalize (divide_and_round (e - t) (count (dp :: dps))). intro iv.
  clear Hc. generalize (t + iv).
  induction dps as [|p ps IH]; intro z; cbn [due_datapoints_loop].
  - constructor.
  - constructor; [reflexivity|apply IH].
Qed.

(** ** Idempotence of [start], [reset] *)

(** Whatever a first [start] did, a second one, at any later time, does
    nothing. *)
Lemma start_twice (settings : Settings.t) (w : World) (r : outcome unit)
  (w1 : World) (c : datetime) :
  start settings w = (r, w1) ->
  start settings (with_clock c w1) = (Return tt, with_clock c w1).
Proof.
  intro H. apply start_leaves_no_request in H.
  rewrite start_unfold. simpl self. now rewrite H.
Qed.

(** C7.  On a run whose status is ['started'], [start] returns normally and
    leaves the world exactly as it was (no field of the run changes, no due
    row is created); running it twice is running it once. *)
Theorem start_when_started_is_noop (settings : Settings.t) (w : World) :
  Simulator.status (self w) = "started"%string ->
  start settings w = (Return tt, w) /\
  (start settings ;; start settings) w = start settings w.
Proof.
  intro Hst.
  assert (H : start settings w = (Return tt, w))
    by (rewrite start_unfold, Hst; reflexivity).
  split; [exact H|].
  unfold bind. now rewrite H.
Qed.

Lemma start_when_started_is_noop_witness :
  start Examples.settings Examples.started_world
  = (Return tt, Examples.started_world) /\
  (start Examples.settings ;; start Examples.settings) Examples.started_world
  = start Examples.settings Examples.started_world.
Proof.
  apply (start_when_started_is_noop Examples.settings Examples.started_world).
  reflexivity.
Defined.

(** C8.  On a run whose status is ['reset'], [reset] deletes every due row
    of the run, whatever they were, sets the status to ['stopped'] and saves
    it; the due rows of the other runs stay. *)
Theorem reset_deletes_and_stops (w : World) :
  Simulator.status (self w) = "reset"%string ->
  reset w = (Return tt, after_reset w) /\
  run_due (after_reset w) = [] /\
  Simulator.status (self (after_reset w)) = "stopped"%string /\
  In (self (after_reset w)) (DB.simulators (db (after_reset w))) /\
  other_due (after_reset w) = other_due w.
Proof.
  intro Hst. split; [|split; [|split; [|split]]].
  - unfold reset, bind, get_self, due_datapoints_delete, modify_self, save.
    rewrite Hst. reflexivity.
  - change (run_due (after_reset w)) with (run_due (after_delete w)).
    apply run_due_after_delete.
  - reflexivity.
  - simpl. apply save_row_In.
  - change (other_due (after_reset w)) with (other_due (after_delete w)).
    apply other_due_after_delete.
Qed.

Lemma reset_deletes_and_stops_witness :
  reset Examples.reset_world = (Return tt, after_reset Examples.reset_world) /\
  run_due (after_reset Examples.reset_world) = [] /\
  Simulator.status (self (after_reset Examples.reset_world)) = "stopped"%string /\
  In (self (after_reset Examples.reset_world))
     (DB.simulators (db (after_reset Examples.reset_world))) /\
  other_due (after_reset Examples.reset_world) = other_due Examples.reset_world.
Proof.
  apply (reset_deletes_and_stops Examples.reset_world). reflexivity.
Defined.

(** ** The batch a successful generation leaves *)

Lemma NoDup_list_prod {A B : Type} (l : list A) (l' : list B) :
  NoDup l -> NoDup l' -> NoDup (list_prod l l').
Proof.
  intros Hl Hl'. induction Hl as [|x t Hx Ht IH]; simpl.
  - constructor.
  - apply NoDup_app.
    + apply NoDup_map_NoDup_ForallPairs; [|exact Hl'].
      intros y z _ _ Hyz. now inversion Hyz.
    + exact IH.
    + intros [u v] Hin Hin'.
      apply in_map_iff in Hin as [y [Hy _]]. inversion Hy; subst.
      apply in_prod_iff in Hin' as [Hu _]. contradiction.
Qed.

Lemma batch_pairs (run : Simulator.t) (dps : list Datapoint.t) (t : datetime)
  (iv : timedelta) (apps : list StudentApp.t) :
  map pair_of (flat_map (rows_for run dps t iv) apps)
  = list_prod (map StudentApp.student apps) (map Datapoint.id dps).
Proof.
  induction apps as [|a rest IH]; simpl; [reflexivity|].
  rewrite map_app, IH, rows_for_pairs, map_map. reflexivity.
Qed.

Lemma count_pos_length {A : Type} (l : list A) :
  count l <> 0 <-> (1 <= List.length l)%nat.
Proof. unfold count. lia. Qed.

(** C3, as stated, fails on the uniqueness of the pairs.  [StudentApp] has
    no uniqueness constraint on (capstone, student): with one student
    enrolled twice and one datapoint the generation succeeds, creates
    1 * 2 rows, and both rows carry the pair (student 7, datapoint 11). *)
Lemma twice_enrolled_pairs_repeat :
  exists w',
    create_due_datapoints Examples.settings 0 Examples.twice_enrolled_world
    = (Return tt, w') /\
    List.length (run_datapoints Examples.twice_enrolled_world) = 1%nat /\
    List.length (run_student_apps Examples.twice_enrolled_world) = 2%nat /\
    map pair_of (run_due w') = [(7, 11); (7, 11)] /\
    ~ NoDup (map pair_of (run_due w')).
Proof.
  eexists. split; [vm_compute; reflexivity|].
  split; [reflexivity|]. split; [reflexivity|].
  split; [vm_compute; reflexivity|].
  intro H. vm_compute in H.
  inversion H as [|x l Hnotin _]; subst. apply Hnotin. now left.
Qed.

(** C3, amended.  A successful generation on a run with N >= 1 datapoints
    and M eligible enrollments (same capstone, non-empty [app_name]) leaves
    exactly N * M due rows for the run; their (student, datapoint) pairs are
    pairwise distinct when the eligible enrollments belong to pairwise
    distinct students (the datapoints being distinct rows). *)
Theorem schedule_size_and_pairs (settings : Settings.t) (starts : datetime)
  (w w' : World) :
  create_due_datapoints settings starts w = (Return tt, w') ->
  (1 <= List.length (run_datapoints w))%nat /\
  List.length (run_due w')
  = (List.length (run_datapoints w) * List.length (run_student_apps w))%nat /\
  (NoDup (map Datapoint.id (run_datapoints w)) ->
   NoDup (map StudentApp.student (run_student_apps w)) ->
   NoDup (map pair_of (run_due w'))).
Proof.
  intro H.
  apply create_due_datapoints_Return in H
    as [e [He [Hn [Hiv [Hcap [Hres ->]]]]]].
  rewrite run_due_after_create.
  split; [now apply count_pos_length|]. split.
  - rewrite (flat_map_length_const _ (List.length (run_datapoints w))).
    + apply Nat.mul_comm.
    + intro a. apply rows_for_length.
  - intros Hdps Happs. rewrite batch_pairs.
    now apply NoDup_list_prod.
Qed.

Lemma schedule_size_and_pairs_witness :
  List.length
    (run_due (snd (create_due_datapoints Examples.settings 0 Examples.world)))
  = 8%nat /\
  NoDup (map pair_of
           (run_due (snd (create_due_datapoints Examples.settings 0
                            Examples.world)))).
Proof.
  assert (Hrun : create_due_datapoints Examples.settings 0 Examples.world
                 = (Return tt,
                    snd (create_due_datapoints Examples.settings 0 Examples.world)))
    by (vm_compute; reflexivity).
  destruct (schedule_size_and_pairs Examples.settings 0 Examples.world _ Hrun)
    as [_ [Hlen Hnd]].
  split; [exact Hlen|].
  apply Hnd; vm_compute;
    repeat (constructor; [simpl; intuition discriminate|]); constructor.
Defined.

(** C4.  On a run with N >= 1 datapoints and an end after the start, a
    successful generation at run start saves
    [interval = (ends - starts) / N] (the timedelta division of the source:
    the quotient to the nearest microsecond), which is positive, and gives
    the k-th eligible enrollment the rows [k * N .. k * N + N - 1] of the
    run: the i-th of them is for the enrollment's student and the i-th
    datapoint and is due at [starts + i * interval], that is [starts] for
    the first and the previous due time plus [interval], strictly later,
    for each next one. *)
Theorem due_times_arithmetic (settings : Settings.t) (starts e : datetime)
  (w w' : World) :
  (1 <= List.length (run_datapoints w))%nat ->
  Simulator.ends (self w) = Some e ->
  starts < e ->
  create_due_datapoints settings starts w = (Return tt, w') ->
  let N := List.length (run_datapoints w) in
  exists interval,
    interval = divide_and_round (e - starts) (Z.of_nat N) /\
    2 * Z.abs (Z.of_nat N * interval - (e - starts)) <= Z.of_nat N /\
    Simulator.interval (self w') = Some interval /\
    0 < interval /\
    forall k a, nth_error (run_student_apps w) k = Some a ->
      (forall i dp, nth_error (run_datapoints w) i = Some dp ->
         exists d,
           nth_error (run_due w') (k * N + i) = Some d /\
           DueDatapoint.student d = StudentApp.student a /\
           DueDatapoint.datapoint d = Datapoint.id dp /\
           DueDatapoint.due d = Some (starts + Z.of_nat i * interval)) /\
      due_at (run_due w') (k * N + 0) = Some starts /\
      (forall i, (S i < N)%nat ->
         exists t,
           due_at (run_due w') (k * N + i) = Some t /\
           due_at (run_due w') (k * N + S i) = Some (t + interval) /\
           t < t + interval).
Proof.
  intros HN He Hlt H N.
  apply create_due_datapoints_Return in H
    as [e' [He' [Hn [Hiv [Hcap [Hres ->]]]]]].
  rewrite He in He'. inversion He'; subst e'. clear He'.
  fold (count (run_datapoints w)).
  set (iv := divide_and_round (e - starts) (count (run_datapoints w))) in *.
  assert (Hcount : 0 < count (run_datapoints w)) by (unfold count; lia).
  assert (Hpos : 0 < iv).
  { pose proof (divide_and_round_nonneg (e - starts) (count (run_datapoints w))
                  ltac:(lia) Hcount). fold iv in H. lia. }
  exists iv. split; [reflexivity|].
  split; [apply divide_and_round_near; exact Hcount|].
  split; [reflexivity|]. split; [exact Hpos|].
  intros k a Hk.
  rewrite run_due_after_create.
  assert (Hrow : forall i dp, nth_error (run_datapoints w) i = Some dp ->
            nth_error
              (flat_map (rows_for (self w) (run_datapoints w) starts iv)
                        (run_student_apps w)) (k * N + i)
            = Some (DueDatapoint.create (Simulator.id (self w)) (Datapoint.id dp)
                      (StudentApp.student a) (starts + Z.of_nat i * iv)
                      (resolved_url (self w) a))).
  { intros i dp Hi.
    rewrite (flat_map_nth_const _ N (fun x => rows_for_length _ _ _ x _) _ k i a Hk).
    - now apply rows_for_nth.
    - apply nth_error_Some. congruence. }
  split; [|split].
  - intros i dp Hi. eexists. split; [apply Hrow; exact Hi|].
    repeat split.
  - destruct (nth_error (run_datapoints w) 0) as [dp|] eqn:H0.
    + unfold due_at. rewrite (Hrow 0%nat dp H0). simpl. f_equal. lia.
    + apply nth_error_None in H0. fold N in HN. lia.
  - intros i Hi.
    destruct (nth_error (run_datapoints w) i) as [dp|] eqn:Hdi;
      [|apply nth_error_None in Hdi; fold N in Hdi; lia].
    destruct (nth_error (run_datapoints w) (S i)) as [dq|] eqn:Hdj;
      [|apply nth_error_None in Hdj; fold N in Hdj; lia].
    exists (starts + Z.of_nat i * iv).
    unfold due_at. rewrite (Hrow i dp Hdi), (Hrow (S i) dq Hdj).
    cbn [DueDatapoint.due DueDatapoint.create].
    split; [reflexivity|]. split; [f_equal; lia|lia].
Qed.

Lemma due_times_arithmetic_witness :
  exists interval,
    interval = 10 * Examples.minute /\
    Simulator.interval
      (self (snd (create_due_datapoints Examples.settings 0 Examples.world)))
    = Some interval /\
    0 < interval /\
    due_at (run_due (snd (create_due_datapoints Examples.settings 0
                            Examples.world))) (1 * 4 + 0) = Some 0.
Proof.
  assert (HN : (1 <= List.length (run_datapoints Examples.world))%nat)
    by (vm_compute; lia).
  assert (He : Simulator.ends (self Examples.world) = Some (40 * Examples.minute))
    by reflexivity.
  assert (Hlt : 0 < 40 * Examples.minute) by (vm_compute; reflexivity).
  assert (Hrun : create_due_datapoints Examples.settings 0 Examples.world
                 = (Return tt,
                    snd (create_due_datapoints Examples.settings 0 Examples.world)))
    by (vm_compute; reflexivity).
  destruct (due_times_arithmetic Examples.settings 0 (40 * Examples.minute)
              Examples.world _ HN He Hlt Hrun)
    as [iv [Hiv [_ [Hsaved [Hpos Hrows]]]]].
  exists iv. split; [rewrite Hiv; vm_compute; reflexivity|].
  split; [exact Hsaved|]. split; [exact Hpos|].
  destruct (Hrows 1%nat (StudentApp.Build 1 9 "beta") eq_refl) as [_ [Hfirst _]].
  exact Hfirst.
Defined.

(** ** Runs without eligible enrollment *)

(** C9, as stated, fails, inside the precondition [endTime > startTime].
    With two datapoints, no eligible enrollment and a window of one
    microsecond, the interval (half a microsecond, rounded to even) is zero
    and [PRODUCER_INTERVAL / interval.total_seconds()] raises
    [ZeroDivisionError].  With a negative [BLOCK_SIZE] the required figure
    zero exceeds it and the capacity branch raises. *)
Lemma short_window_fails :
  (run_student_apps Examples.one_microsecond_world = [] /\
   List.length (run_datapoints Examples.one_microsecond_world) = 2%nat /\
   Simulator.ends (self Examples.one_microsecond_world) = Some 1 /\
   0 < 1 /\
   fst (create_due_datapoints Examples.settings 0 Examples.one_microsecond_world)
   = Raise ZeroDivisionError) /\
  (run_student_apps Examples.no_apps_world = [] /\
   List.length (run_datapoints Examples.no_apps_world) = 4%nat /\
   Simulator.ends (self Examples.no_apps_world) = Some (40 * Examples.minute) /\
   0 < 40 * Examples.minute /\
   fst (create_due_datapoints Examples.negative_block 0 Examples.no_apps_world)
   = Raise TypeError).
Proof. repeat split; vm_compute; reflexivity. Qed.

Lemma no_enrollment_capacity (settings : Settings.t) (iv : timedelta) :
  0 <= Settings.BLOCK_SIZE settings ->
  capacity_exceeded settings 0 iv = false.
Proof.
  intro HB. unfold capacity_exceeded, required_requests_per_cycle, Qltb.
  apply negb_false_iff, Qle_bool_iff.
  rewrite Qmult_0_l. change 0%Q with (inject_Z 0).
  rewrite <- Zle_Qle. exact HB.
Qed.

Lemma divide_and_round_pos (a b : Z) :
  0 < b -> b < 2 * a -> 0 < divide_and_round a b.
Proof.
  intros Hb Hab. unfold divide_and_round.
  assert (Hlt : (0 <? b) = true) by (apply Z.ltb_lt; exact Hb).
  rewrite Hlt.
  destruct (Z_lt_ge_dec a b) as [Hsmall|Hbig].
  - rewrite (Z.div_small a b), (Z.mod_small a b) by lia.
    assert (Hup : (b <? 2 * a) = true) by (apply Z.ltb_lt; exact Hab).
    rewrite Hup. simpl. lia.
  - assert (Hq : 1 <= a / b) by (apply Z.div_le_lower_bound; lia).
    destruct (_ || _); lia.
Qed.

(** C9, amended.  On a run with N >= 1 datapoints, no eligible enrollment
    and an end after the start, the generation succeeds and leaves no due
    row for the run, provided the window is longer than half a microsecond
    per datapoint (so that the interval [(ends - starts) / N] does not round
    to zero) and [BLOCK_SIZE] is not negative. *)
Theorem no_enrollment_succeeds (settings : Settings.t) (starts e : datetime)
  (w : World) :
  (1 <= List.length (run_datapoints w))%nat ->
  run_student_apps w = [] ->
  Simulator.ends (self w) = Some e ->
  starts < e ->
  count (run_datapoints w) < 2 * (e - starts) ->
  0 <= Settings.BLOCK_SIZE settings ->
  exists w',
    create_due_datapoints settings starts w = (Return tt, w') /\
    run_due w' = [].
Proof.
  intros HN Happs He Hlt Hlong HB.
  assert (Hn : count (run_datapoints w) <> 0) by now apply count_pos_length.
  assert (Hiv : 0 < divide_and_round (e - starts) (count (run_datapoints w))).
  { apply divide_and_round_pos; [unfold count in *; lia|exact Hlong]. }
  eexists. split.
  - apply (create_due_datapoints_succeeds settings starts e w); try assumption.
    + lia.
    + rewrite Happs. now apply no_enrollment_capacity.
    + rewrite Happs. constructor.
  - rewrite run_due_after_create, Happs. reflexivity.
Qed.

Lemma no_enrollment_succeeds_witness :
  exists w',
    create_due_datapoints Examples.settings 0 Examples.no_apps_world
    = (Return tt, w') /\
    run_due w' = [].
Proof.
  apply (no_enrollment_succeeds Examples.settings 0 (40 * Examples.minute)
           Examples.no_apps_world).
  - vm_compute. lia.
  - reflexivity.
  - reflexivity.
  - vm_compute. reflexivity.
  - vm_compute. reflexivity.
  - vm_compute. discriminate.
Defined.

(** ** Regeneration replaces the schedule *)

(** C10.  [create_due_datapoints] deletes the due rows of the run before
    anything else: when it succeeds the due rows of the run are exactly the
    schedule just generated, the due rows of the other runs are as before,
    and the outcome is the one obtained from the world in which the run had
    no due row left. *)
Theorem create_due_datapoints_replaces (settings : Settings.t)
  (starts e : datetime) (w w' : World) :
  Simulator.ends (self w) = Some e ->
  create_due_datapoints settings starts w = (Return tt, w') ->
  run_due w'
  = generateSchedule (self w) (run_datapoints w) starts e (run_student_apps w) /\
  other_due w' = other_due w /\
  create_due_datapoints settings starts (after_delete w) = (Return tt, w').
Proof.
  intros He H.
  split; [|split].
  - apply create_due_datapoints_Return in H
      as [e' [He' [Hn [Hiv [Hcap [Hres ->]]]]]].
    rewrite He in He'. inversion He'; subst e'.
    rewrite run_due_after_create. apply batch_is_generateSchedule.
  - apply create_due_datapoints_Return in H
      as [e' [He' [Hn [Hiv [Hcap [Hres ->]]]]]].
    apply other_due_after_create.
  - rewrite create_due_datapoints_after_delete. exact H.
Qed.

Lemma create_due_datapoints_replaces_witness :
  run_due (snd (create_due_datapoints Examples.settings 0 Examples.world))
  = generateSchedule (self Examples.world) (run_datapoints Examples.world) 0
      (40 * Examples.minute) (run_student_apps Examples.world) /\
  other_due (snd (create_due_datapoints Examples.settings 0 Examples.world))
  = other_due Examples.world /\
  create_due_datapoints Examples.settings 0 (after_delete Examples.world)
  = (Return tt, snd (create_due_datapoints Examples.settings 0 Examples.world)).
Proof.
  apply (create_due_datapoints_replaces Examples.settings 0
           (40 * Examples.minute) Examples.world).
  - reflexivity.
  - vm_compute. reflexivity.
Defined.

(** ** What the methods leave alone *)

Lemma save_row_saved (s : Simulator.t) (rows : list Simulator.t) :
  find (fun r => Simulator.id r =? Simulator.id s) (save_row s rows) = Some s.
Proof.
  induction rows as [|r rest IH]; simpl.
  - now rewrite Z.eqb_refl.
  - destruct (Simulator.id r =? Simulator.id s) eqn:E; simpl.
    + now rewrite Z.eqb_refl.
    + now rewrite E.
Qed.

Lemma save_row_twice (s : Simulator.t) (rows : list Simulator.t) :
  save_row s (save_row s rows) = save_row s rows.
Proof.
  induction rows as [|r rest IH]; simpl.
  - now rewrite Z.eqb_refl.
  - destruct (Simulator.id r =? Simulator.id s) eqn:E; simpl.
    + now rewrite Z.eqb_refl.
    + now rewrite E, IH.
Qed.

(** [add_student_app] with an explicit [starts], whatever its outcome:
    nothing but the due table changes, and the due table only grows, by
    rows of the run. *)
Lemma add_student_app_shape (a : StudentApp.t) (dps : list Datapoint.t)
  (t : datetime) (w : World) (r : outcome unit) (w' : World) :
  add_student_app a dps (Some t) w = (r, w') ->
  exists rows,
    w' = with_db (DB.with_due_datapoints (DB.due_datapoints (db w) ++ rows)
                                         (db w)) w /\
    Forall (fun d => DueDatapoint.simulator d = Simulator.id (self w)) rows.
Proof.
  intro H. rewrite add_student_app_unfold in H.
  assert (Hsame : w = with_db (DB.with_due_datapoints
                                 (DB.due_datapoints (db w) ++ []) (db w)) w).
  { rewrite app_nil_r. destruct w as [s [a0 b c d] k]. reflexivity. }
  destruct (Simulator.ends (self w)) as [e|];
    [|inversion H; subst; exists []; split; [exact Hsame|constructor]].
  destruct (count dps =? 0);
    [inversion H; subst; exists []; split; [exact Hsame|constructor]|].
  destruct (format _ _) as [u|x];
    [|inversion H; subst; exists []; split; [exact Hsame|constructor]].
  inversion H; subst. eexists. split; [reflexivity|].
  generalize (divide_and_round (e - t) (count dps)). intro iv. clear H.
  generalize t.
  induction dps as [|dp rest IH]; intro t0; cbn [due_datapoints_loop].
  - constructor.
  - constructor; [reflexivity|apply IH].
Qed.

Lemma for_each_add_shape (dps : list Datapoint.t) (t : datetime)
  (apps : list StudentApp.t) :
  forall w r w',
    for_each apps (fun a => add_student_app a dps (Some t)) w = (r, w') ->
    exists rows,
      w' = with_db (DB.with_due_datapoints (DB.due_datapoints (db w) ++ rows)
                                           (db w)) w /\
      Forall (fun d => DueDatapoint.simulator d = Simulator.id (self w)) rows.
Proof.
  induction apps as [|a rest IH]; intros w r w' H; simpl in H.
  - unfold ret in H. inversion H; subst. exists []. split; [|constructor].
    rewrite app_nil_r. destruct w' as [s [a0 b c d] k]. reflexivity.
  - unfold bind in H.
    destruct (add_student_app a dps (Some t) w) as [[[]|x] w1] eqn:Ha.
    + apply add_student_app_shape in Ha as [rows1 [-> Hrows1]].
      apply IH in H as [rows2 [-> Hrows2]]. simpl in *.
      exists (rows1 ++ rows2). split.
      * rewrite app_assoc. reflexivity.
      * apply Forall_app. split; assumption.
    + inversion H; subst.
      apply add_student_app_shape in Ha. exact Ha.
Qed.

Lemma filter_other_rows (sid : Z) (rows : list DueDatapoint.t) :
  Forall (fun d => DueDatapoint.simulator d = sid) rows ->
  filter (fun d => negb (of_simulator sid d)) rows = [].
Proof.
  induction 1 as [|d l Hd _ IH]; simpl; [reflexivity|].
  unfold of_simulator at 1. rewrite Hd, Z.eqb_refl. exact IH.
Qed.

(** X1.  Whatever its outcome, [create_due_datapoints] leaves the
    enrollments, the datapoints and the due rows of the other runs as they
    were, and changes no field of [self] but [interval]. *)
Theorem create_due_datapoints_frame (settings : Settings.t) (starts : datetime)
  (w : World) (r : outcome unit) (w' : World) :
  create_due_datapoints settings starts w = (r, w') ->
  DB.student_apps (db w') = DB.student_apps (db w) /\
  DB.datapoints (db w') = DB.datapoints (db w) /\
  other_due w' = other_due w /\
  Simulator.with_interval (Simulator.interval (self w)) (self w') = self w.
Proof.
  intro H. rewrite create_due_datapoints_unfold in H.
  assert (Hsame : Simulator.with_interval (Simulator.interval (self w)) (self w)
                  = self w) by (destruct (self w); reflexivity).
  assert (Hearly : forall x, (Raise x, after_delete w) = (r, w') ->
    DB.student_apps (db w') = DB.student_apps (db w) /\
    DB.datapoints (db w') = DB.datapoints (db w) /\
    other_due w' = other_due w /\
    Simulator.with_interval (Simulator.interval (self w)) (self w') = self w).
  { intros x Hx. inversion Hx; subst.
    repeat split; [apply other_due_after_delete|exact Hsame]. }
  destruct (Simulator.ends (self w)) as [e|]; [|eapply Hearly; exact H].
  cbv zeta in H.
  destruct (_ =? 0); [eapply Hearly; exact H|].
  destruct (_ =? 0); [eapply Hearly; exact H|].
  destruct (capacity_exceeded _ _ _); [eapply Hearly; exact H|].
  clear Hearly. apply for_each_add_shape in H as [rows [-> Hrows]].
  simpl in Hrows.
  repeat split.
  - unfold other_due, after_delete, other_due. simpl. rewrite filter_app.
    rewrite filter_other_of_other.
    rewrite (filter_other_rows _ _ Hrows). apply app_nil_r.
  - simpl. destruct (self w); reflexivity.
Qed.

Lemma create_due_datapoints_frame_witness :
  fst (create_due_datapoints Examples.settings 0 Examples.overloaded_world)
  = Raise TypeError /\
  DB.student_apps
    (db (snd (create_due_datapoints Examples.settings 0 Examples.overloaded_world)))
  = DB.student_apps (db Examples.overloaded_world) /\
  DB.datapoints
    (db (snd (create_due_datapoints Examples.settings 0 Examples.overloaded_world)))
  = DB.datapoints (db Examples.overloaded_world) /\
  other_due (snd (create_due_datapoints Examples.settings 0 Examples.overloaded_world))
  = other_due Examples.overloaded_world /\
  Simulator.with_interval (Simulator.interval (self Examples.overloaded_world))
    (self (snd (create_due_datapoints Examples.settings 0
                  Examples.overloaded_world)))
  = self Examples.overloaded_world.
Proof.
  split; [vm_compute; reflexivity|].
  apply (create_due_datapoints_frame Examples.settings 0
           Examples.overloaded_world
           (fst (create_due_datapoints Examples.settings 0
                   Examples.overloaded_world))).
  vm_compute. reflexivity.
Defined.

(** ** [start], outcome by outcome *)

(** X2.  On a run asked to start, [start] leaves the status ['started'] and
    the started timestamp at the current time whether it returns or raises,
    and the row of the run in the database is the [self] it leaves: nothing
    it changed on [self] is left unsaved. *)
Theorem start_always_marks_started (settings : Settings.t) (w : World)
  (r : outcome unit) (w' : World) :
  Simulator.status (self w) = "start"%string ->
  start settings w = (r, w') ->
  Simulator.status (self w') = "started"%string /\
  Simulator.started (self w') = Some (clock w) /\
  saved_row w' = Some (self w').
Proof.
  intros Hst H. rewrite start_unfold, Hst in H. simpl String.eqb in H.
  cbv iota in H. rewrite create_due_datapoints_unfold in H.
  assert (Hearly : forall x, (Raise x, after_delete (after_mark_started w)) = (r, w') ->
    Simulator.status (self w') = "started"%string /\
    Simulator.started (self w') = Some (clock w) /\
    saved_row w' = Some (self w')).
  { intros x Hx. inversion Hx; subst. repeat split.
    exact (save_row_saved (self (after_mark_started w)) (DB.simulators (db w))). }
  destruct (Simulator.ends (self (after_mark_started w))) as [e|];
    [|eapply Hearly; exact H].
  cbv zeta in H.
  destruct (_ =? 0); [eapply Hearly; exact H|].
  destruct (_ =? 0); [eapply Hearly; exact H|].
  destruct (capacity_exceeded _ _ _); [eapply Hearly; exact H|].
  clear Hearly. apply for_each_add_shape in H as [rows [-> _]].
  repeat split.
  exact (save_row_saved
           (Simulator.with_interval
              (Some (divide_and_round (e - clock w)
                       (count (run_datapoints (after_mark_started w)))))
              (self (after_mark_started w)))
           (DB.simulators (db (after_mark_started w)))).
Qed.

Lemma start_always_marks_started_witness :
  fst (start Examples.settings Examples.overloaded_world) = Raise TypeError /\
  Simulator.status
    (self (snd (start Examples.settings Examples.overloaded_world)))
  = "started"%string /\
  Simulator.started
    (self (snd (start Examples.settings Examples.overloaded_world)))
  = Some (clock Examples.overloaded_world) /\
  saved_row (snd (start Examples.settings Examples.overloaded_world))
  = Some (self (snd (start Examples.settings Examples.overloaded_world))).
Proof.
  split; [vm_compute; reflexivity|].
  apply (start_always_marks_started Examples.settings Examples.overloaded_world
           (fst (start Examples.settings Examples.overloaded_world))).
  - reflexivity.
  - vm_compute. reflexivity.
Defined.

(** X3.  When [start] returns normally on a run asked to start, the run
    had an end time, it is ['started'] since the current time, [interval] is
    the window from now to the end divided by the number of datapoints, the
    row in the database is the [self] it leaves, the due rows of the run are
    the schedule counted from now and the due rows of the other runs are as
    before. *)
Theorem start_on_return (settings : Settings.t) (w w' : World) :
  Simulator.status (self w) = "start"%string ->
  start settings w = (Return tt, w') ->
  exists e,
    Simulator.ends (self w) = Some e /\
    Simulator.status (self w') = "started"%string /\
    Simulator.started (self w') = Some (clock w) /\
    Simulator.interval (self w')
    = Some (divide_and_round (e - clock w) (count (run_datapoints w))) /\
    saved_row w' = Some (self w') /\
    run_due w'
    = generateSchedule (self w) (run_datapoints w) (clock w) e
        (run_student_apps w) /\
    other_due w' = other_due w.
Proof.
  intros Hst H.
  rewrite start_unfold, Hst in H. simpl String.eqb in H. cbv iota in H.
  apply create_due_datapoints_Return in H
    as [e [He [Hn [Hiv [Hcap [Hres ->]]]]]].
  exists e. split; [exact He|].
  split; [reflexivity|]. split; [reflexivity|]. split; [reflexivity|].
  split; [|split].
  - exact (save_row_saved
             (Simulator.with_interval
                (Some (divide_and_round (e - clock w)
                         (count (run_datapoints w))))
                (self (after_mark_started w)))
             (DB.simulators (db (after_mark_started w)))).
  - rewrite run_due_after_create.
    apply (batch_is_generateSchedule (self w) (run_datapoints w) (clock w) e
             (run_student_apps w)).
  - rewrite other_due_after_create. reflexivity.
Qed.

Lemma start_on_return_witness :
  exists e,
    Simulator.ends (self Examples.world) = Some e /\
    Simulator.status (self (snd (start Examples.settings Examples.world)))
    = "started"%string /\
    Simulator.started (self (snd (start Examples.settings Examples.world)))
    = Some (clock Examples.world) /\
    Simulator.interval (self (snd (start Examples.settings Examples.world)))
    = Some (divide_and_round (e - clock Examples.world)
              (count (run_datapoints Examples.world))) /\
    saved_row (snd (start Examples.settings Examples.world))
    = Some (self (snd (start Examples.settings Examples.world))) /\
    run_due (snd (start Examples.settings Examples.world))
    = generateSchedule (self Examples.world) (run_datapoints Examples.world)
        (clock Examples.world) e (run_student_apps Examples.world) /\
    other_due (snd (start Examples.settings Examples.world))
    = other_due Examples.world.
Proof.
  apply (start_on_return Examples.settings Examples.world).
  - reflexivity.
  - vm_compute. reflexivity.
Defined.

(** ** Regenerating, and the rows of a schedule *)

Lemma after_create_twice (starts : datetime) (iv : timedelta) (w : World) :
  after_create starts iv (after_create starts iv w) = after_create starts iv w.
Proof.
  unfold after_create at 1.
  rewrite other_due_after_create.
  change (self (after_create starts iv w))
    with (Simulator.with_interval (Some iv) (self w)).
  change (DB.simulators (db (after_create starts iv w)))
    with (save_row (Simulator.with_interval (Some iv) (self w))
                   (DB.simulators (db w))).
  change (Simulator.with_interval (Some iv)
            (Simulator.with_interval (Some iv) (self w)))
    with (Simulator.with_interval (Some iv) (self w)).
  rewrite save_row_twice. reflexivity.
Qed.

(** X4.  Generating again from the world a successful generation left, with
    the same start, succeeds and leaves that world as it is: the schedule is
    rebuilt, not added to. *)
Theorem create_due_datapoints_again (settings : Settings.t) (starts : datetime)
  (w w' : World) :
  create_due_datapoints settings starts w = (Return tt, w') ->
  create_due_datapoints settings starts w' = (Return tt, w').
Proof.
  intro H.
  apply create_due_datapoints_Return in H
    as [e [He [Hn [Hiv [Hcap [Hres ->]]]]]].
  set (iv := divide_and_round (e - starts) (count (run_datapoints w))) in *.
  rewrite (create_due_datapoints_succeeds settings starts e (after_create starts iv w));
    try assumption.
  change (run_datapoints (after_create starts iv w)) with (run_datapoints w).
  fold iv. now rewrite after_create_twice.
Qed.

Lemma create_due_datapoints_again_witness :
  create_due_datapoints Examples.settings 0
    (snd (create_due_datapoints Examples.settings 0 Examples.world))
  = (Return tt, snd (create_due_datapoints Examples.settings 0 Examples.world)).
Proof.
  apply (create_due_datapoints_again Examples.settings 0 Examples.world).
  vm_compute. reflexivity.
Defined.

(** A row of the rows of an enrollment is the row of some datapoint. *)
Lemma rows_for_In (run : Simulator.t) (dps : list Datapoint.t) (t : datetime)
  (iv : timedelta) (a : StudentApp.t) (d : DueDatapoint.t) :
  In d (rows_for run dps t iv a) ->
  exists i dp,
    nth_error dps i = Some dp /\
    d = DueDatapoint.create (Simulator.id run) (Datapoint.id dp)
          (StudentApp.student a) (t + Z.of_nat i * iv) (resolved_url run a).
Proof.
  intro Hd. apply In_nth_error in Hd as [i Hi].
  assert (Hlt : (i < List.length dps)%nat).
  { rewrite <- (rows_for_length run dps iv a t). apply nth_error_Some. congruence. }
  destruct (nth_error dps i) as [dp|] eqn:Hdp;
    [|apply nth_error_None in Hdp; lia].
  exists i, dp. split; [exact Hdp|].
  rewrite (rows_for_nth run iv a dps t i dp Hdp) in Hi. now inversion Hi.
Qed.

(** X5.  After a successful generation every due row of the run refers to
    a datapoint of this run and to the student of an enrollment of the run's
    capstone with a non-empty [app_name], carries the URL the endpoint
    formats to for that enrollment, has a due time, is in state ['due'] and
    has no response recorded. *)
Theorem generated_rows_are_well_formed (settings : Settings.t)
  (starts : datetime) (w w' : World) (d : DueDatapoint.t) :
  create_due_datapoints settings starts w = (Return tt, w') ->
  In d (run_due w') ->
  (exists dp,
     In dp (DB.datapoints (db w)) /\
     Datapoint.simulator dp = Simulator.id (self w) /\
     DueDatapoint.datapoint d = Datapoint.id dp) /\
  (exists a,
     In a (DB.student_apps (db w)) /\
     StudentApp.capstone a = Simulator.capstone (self w) /\
     StudentApp.app_name a <> EmptyString /\
     DueDatapoint.student d = StudentApp.student a /\
     format (Simulator.endpoint (self w)) (StudentApp.app_name a)
     = Return (DueDatapoint.url d)) /\
  (exists t, DueDatapoint.due d = Some t) /\
  DueDatapoint.state d = "due"%string /\
  DueDatapoint.response_content d = EmptyString /\
  DueDatapoint.response_exception d = None /\
  DueDatapoint.response_traceback d = None /\
  DueDatapoint.response_elapsed d = None /\
  DueDatapoint.response_status d = None /\
  DueDatapoint.response_timeout d = false.
Proof.
  intros H Hd.
  apply create_due_datapoints_Return in H
    as [e [He [Hn [Hiv [Hcap [Hres ->]]]]]].
  rewrite run_due_after_create in Hd.
  apply in_flat_map in Hd as [a [Ha Hd]].
  apply rows_for_In in Hd as [i [dp [Hdp ->]]].
  apply nth_error_In in Hdp.
  apply filter_In in Hdp as [Hdp Hsim]. apply Z.eqb_eq in Hsim.
  rewrite Forall_forall in Hres. destruct (Hres a Ha) as [u Hu].
  apply filter_In in Ha as [Ha Hel].
  unfold eligible in Hel. apply andb_true_iff in Hel as [Hcap' Hname].
  apply Z.eqb_eq in Hcap'. apply negb_true_iff in Hname.
  apply String.eqb_neq in Hname.
  split; [exists dp; repeat split; assumption|].
  split.
  - exists a. repeat split; try assumption.
    cbn [DueDatapoint.url DueDatapoint.create]. unfold resolved_url.
    now rewrite Hu.
  - split; [eexists; reflexivity|]. repeat split.
Qed.

Lemma generated_rows_are_well_formed_witness :
  exists a,
    In a (DB.student_apps (db Examples.world)) /\
    StudentApp.capstone a = Simulator.capstone (self Examples.world) /\
    StudentApp.app_name a <> EmptyString /\
    7 = StudentApp.student a /\
    format (Simulator.endpoint (self Examples.world)) (StudentApp.app_name a)
    = Return "https://alpha.herokuapp.com/predict"%string.
Proof.
  assert (Hrun : create_due_datapoints Examples.settings 0 Examples.world
                 = (Return tt,
                    snd (create_due_datapoints Examples.settings 0 Examples.world)))
    by (vm_compute; reflexivity).
  assert (Hin : In (DueDatapoint.create 1 11 7 0 "https://alpha.herokuapp.com/predict")
                   (run_due (snd (create_due_datapoints Examples.settings 0
                                    Examples.world))))
    by (vm_compute; left; reflexivity).
  destruct (generated_rows_are_well_formed Examples.settings 0 Examples.world
              _ _ Hrun Hin) as [_ [Happ _]].
  exact Happ.
Defined.

(** ** Due times and the window *)

Lemma divide_and_round_exact (b q : Z) :
  0 < b -> divide_and_round (b * q) b = q.
Proof.
  intro Hb. unfold divide_and_round.
  rewrite (Z.mul_comm b q), Z.div_mul, Z.mod_mul by lia.
  assert (H1 : (0 <? b) = true) by (apply Z.ltb_lt; exact Hb).
  assert (H2 : (b <? 2 * 0) = false) by (apply Z.ltb_ge; lia).
  assert (H3 : (2 * 0 =? b) = false) by (apply Z.eqb_neq; lia).
  rewrite H1, H2, H3. reflexivity.
Qed.

Lemma divide_and_round_nonpos (a b : Z) :
  a < 0 -> 0 < b -> divide_and_round a b <= 0.
Proof.
  intros Ha Hb. unfold divide_and_round.
  assert (Hq : a / b < 0) by (apply Z.div_lt_upper_bound; lia).
  destruct (_ || _); lia.
Qed.

(** X6.  After a successful generation on a window that ends after it
    starts, every due time of the run lies in the window, from [starts]
    included to the end excluded, provided the interval is more than half
    as many microseconds as there are datapoints. *)
Theorem due_times_within_window (settings : Settings.t) (starts e : datetime)
  (w w' : World) (d : DueDatapoint.t) (t : datetime) :
  Simulator.ends (self w) = Some e ->
  starts < e ->
  count (run_datapoints w)
  < 2 * divide_and_round (e - starts) (count (run_datapoints w)) ->
  create_due_datapoints settings starts w = (Return tt, w') ->
  In d (run_due w') ->
  DueDatapoint.due d = Some t ->
  starts <= t < e.
Proof.
  intros He Hlt Hwide H Hd Ht.
  apply create_due_datapoints_Return in H
    as [e' [He' [Hn [Hiv [Hcap [Hres ->]]]]]].
  rewrite He in He'. inversion He'; subst e'. clear He'.
  rewrite run_due_after_create in Hd.
  apply in_flat_map in Hd as [a [_ Hd]].
  apply rows_for_In in Hd as [i [dp [Hdp ->]]].
  cbn [DueDatapoint.due DueDatapoint.create] in Ht. inversion Ht; subst t.
  assert (Hi : Z.of_nat i < count (run_datapoints w)).
  { unfold count. apply Nat2Z.inj_lt, nth_error_Some. congruence. }
  set (n := count (run_datapoints w)) in *.
  set (iv := divide_and_round (e - starts) n) in *.
  assert (Hnpos : 0 < n) by lia.
  pose proof (divide_and_round_near (e - starts) n Hnpos) as Hnear.
  fold iv in Hnear. clearbody n iv.
  assert (Hpos : 0 < iv) by lia.
  assert (Hmul : Z.of_nat i * iv <= (n - 1) * iv)
    by (apply Z.mul_le_mono_nonneg_r; lia).
  split; [nia|]. nia.
Qed.

Lemma due_times_within_window_witness :
  0 <= 30 * Examples.minute < 40 * Examples.minute.
Proof.
  apply (due_times_within_window Examples.settings 0 (40 * Examples.minute)
           Examples.world
           (snd (create_due_datapoints Examples.settings 0 Examples.world))
           (DueDatapoint.create 1 15 9 (30 * Examples.minute)
              "https://beta.herokuapp.com/predict")).
  - reflexivity.
  - vm_compute. reflexivity.
  - vm_compute. reflexivity.
  - vm_compute. reflexivity.
  - vm_compute. do 7 right. left. reflexivity.
  - reflexivity.
Defined.

(** Without that proviso a due time can fall after the end: ten datapoints
    in a window of 15 microseconds get an interval of 2 microseconds, and
    the last of them is due at 18. *)
Lemma due_time_after_the_end :
  Simulator.ends (self Examples.short_world) = Some 15 /\
  exists w',
    create_due_datapoints Examples.roomy 0 Examples.short_world = (Return tt, w') /\
    Simulator.interval (self w') = Some 2 /\
    due_at (run_due w') 9 = Some 18.
Proof.
  split; [reflexivity|]. eexists.
  split; [vm_compute; reflexivity|]. split; vm_compute; reflexivity.
Qed.

(** X7.  When the window is a whole number [q] of microseconds per
    datapoint, the interval a successful generation saves is exactly [q]:
    the due time that would follow the last one is the end of the run. *)
Theorem interval_exact (settings : Settings.t) (starts e q : datetime)
  (w w' : World) :
  Simulator.ends (self w) = Some e ->
  e - starts = count (run_datapoints w) * q ->
  create_due_datapoints settings starts w = (Return tt, w') ->
  Simulator.interval (self w') = Some q /\
  starts + count (run_datapoints w) * q = e.
Proof.
  intros He Hq H.
  apply create_due_datapoints_Return in H
    as [e' [He' [Hn [Hiv [Hcap [Hres ->]]]]]].
  rewrite He in He'. inversion He'; subst e'. clear He'.
  split; [|lia].
  cbn [self after_create Simulator.interval Simulator.with_interval].
  rewrite Hq, divide_and_round_exact; [reflexivity|unfold count in *; lia].
Qed.

Lemma interval_exact_witness :
  Simulator.interval
    (self (snd (create_due_datapoints Examples.settings 0 Examples.world)))
  = Some (10 * Examples.minute) /\
  0 + count (run_datapoints Examples.world) * (10 * Examples.minute)
  = 40 * Examples.minute.
Proof.
  apply (interval_exact Examples.settings 0 (40 * Examples.minute)
           (10 * Examples.minute) Examples.world).
  - reflexivity.
  - vm_compute. reflexivity.
  - vm_compute. reflexivity.
Defined.

(** ** The capacity check and the load *)

(** The comparison of the capacity check on a positive interval of [p]
    microseconds and a producer interval of [pn / pd] seconds, with the
    divisions multiplied out. *)
Lemma required_lt_cross (pn : Z) (pd p : positive) (B apps : Z) :
  (inject_Z B < inject_Z apps * ((pn # pd) / total_seconds (Z.pos p)))%Q <->
  B * Z.pos p * Z.pos pd < apps * pn * 1000000.
Proof.
  unfold total_seconds, Qlt, Qdiv, Qmult, Qinv, inject_Z. simpl.
  rewrite !Pos2Z.inj_mul. split; intro H; lia.
Qed.

(** X9.  With a non-negative [PRODUCER_INTERVAL] and a non-negative
    [BLOCK_SIZE], a capacity check that fails keeps failing with more
    eligible enrollments and with a shorter positive interval. *)
Theorem capacity_exceeded_monotone (settings : Settings.t) (apps apps' : Z)
  (iv iv' : timedelta) :
  (0 <= Settings.PRODUCER_INTERVAL settings)%Q ->
  0 <= Settings.BLOCK_SIZE settings ->
  0 <= apps <= apps' ->
  0 < iv' <= iv ->
  capacity_exceeded settings apps iv = true ->
  capacity_exceeded settings apps' iv' = true.
Proof.
  intros HP HB Happs Hiv H.
  unfold capacity_exceeded in *. rewrite Qltb_lt in *.
  unfold required_requests_per_cycle in *.
  destruct settings as [[pn pd] B]. simpl in *.
  destruct iv as [|p|p]; try lia. destruct iv' as [|p'|p']; try lia.
  apply required_lt_cross in H. apply required_lt_cross.
  set (iv := Z.pos p) in *. set (iv' := Z.pos p') in *. clearbody iv iv'.
  unfold Qle in HP. simpl in HP.
  assert (Hpn : 0 <= pn) by lia.
  pose proof (Pos2Z.is_pos pd) as Hpd.
  assert (H1 : B * iv' * Z.pos pd <= B * iv * Z.pos pd) by nia.
  assert (H2 : apps * pn * 1000000 <= apps' * pn * 1000000) by nia.
  lia.
Qed.

Lemma capacity_exceeded_monotone_witness :
  capacity_exceeded Examples.settings 300 (5 * Examples.second) = true.
Proof.
  apply (capacity_exceeded_monotone Examples.settings 210 300
           (10 * Examples.second) (5 * Examples.second)).
  - vm_compute. discriminate.
  - vm_compute. discriminate.
  - lia.
  - vm_compute. split; [reflexivity|discriminate].
  - vm_compute. reflexivity.
Defined.

Lemma capacity_never_exceeded_backwards (settings : Settings.t) (apps : Z)
  (iv : timedelta) :
  iv < 0 -> 0 <= apps ->
  0 <= Settings.BLOCK_SIZE settings ->
  (0 <= Settings.PRODUCER_INTERVAL settings)%Q ->
  capacity_exceeded settings apps iv = false.
Proof.
  intros Hiv Happs HB HP. unfold capacity_exceeded, Qltb.
  apply negb_false_iff, Qle_bool_iff.
  unfold required_requests_per_cycle, total_seconds.
  destruct settings as [[pn pd] B]. simpl in *.
  destruct iv as [|p|p]; try lia.
  unfold Qle, Qdiv, Qmult, Qinv, inject_Z in *. simpl in *.
  assert (Hpn : 0 <= apps * pn) by nia.
  pose proof (Pos2Z.is_pos (pd * (p * 1))) as Hpos.
  nia.
Qed.

(** X10.  The code does not check that the end is after the start.  On a
    run whose end lies before [starts] (a non-zero interval, an endpoint that
    formats, a non-negative [PRODUCER_INTERVAL] and [BLOCK_SIZE]) the
    capacity check passes whatever the number of enrollments, the generation
    succeeds and the interval it saves is negative: each next datapoint is
    due strictly earlier than the one before. *)
Theorem generation_after_the_end (settings : Settings.t) (starts e : datetime)
  (w : World) :
  Simulator.ends (self w) = Some e ->
  e < starts ->
  (1 <= List.length (run_datapoints w))%nat ->
  divide_and_round (e - starts) (count (run_datapoints w)) <> 0 ->
  (0 <= Settings.PRODUCER_INTERVAL settings)%Q ->
  0 <= Settings.BLOCK_SIZE settings ->
  Forall (resolves (self w)) (run_student_apps w) ->
  exists w' interval,
    create_due_datapoints settings starts w = (Return tt, w') /\
    Simulator.interval (self w') = Some interval /\
    interval < 0 /\
    forall k a i dp,
      nth_error (run_student_apps w) k = Some a ->
      nth_error (run_datapoints w) i = Some dp ->
      due_at (run_due w') (k * List.length (run_datapoints w) + i)
      = Some (starts + Z.of_nat i * interval).
Proof.
  intros He Hlt HN Hiv HP HB Hres.
  assert (Hn : count (run_datapoints w) <> 0) by now apply count_pos_length.
  assert (Hneg : divide_and_round (e - starts) (count (run_datapoints w)) < 0).
  { pose proof (divide_and_round_nonpos (e - starts) (count (run_datapoints w))
                  ltac:(lia) ltac:(unfold count in *; lia)). lia. }
  eexists. eexists. split; [|split; [|split]].
  - apply (create_due_datapoints_succeeds settings starts e w); try assumption.
    apply capacity_never_exceeded_backwards; try assumption.
    unfold count. lia.
  - reflexivity.
  - exact Hneg.
  - intros k a i dp Hk Hi.
    rewrite run_due_after_create. unfold due_at.
    rewrite (flat_map_nth_const _ (List.length (run_datapoints w))
               (fun x => rows_for_length _ _ _ x _) _ k i a Hk).
    + rewrite (rows_for_nth _ _ _ _ _ _ _ Hi). reflexivity.
    + apply nth_error_Some. congruence.
Qed.

Lemma generation_after_the_end_witness :
  exists w' interval,
    create_due_datapoints Examples.settings (100 * Examples.minute)
      Examples.past_world = (Return tt, w') /\
    Simulator.interval (self w') = Some interval /\
    interval < 0 /\
    forall k a i dp,
      nth_error (run_student_apps Examples.past_world) k = Some a ->
      nth_error (run_datapoints Examples.past_world) i = Some dp ->
      due_at (run_due w')
        (k * List.length (run_datapoints Examples.past_world) + i)
      = Some (100 * Examples.minute + Z.of_nat i * interval).
Proof.
  apply (generation_after_the_end Examples.settings (100 * Examples.minute)
           (40 * Examples.minute) Examples.past_world).
  - reflexivity.
  - vm_compute. reflexivity.
  - vm_compute. lia.
  - vm_compute. discriminate.
  - vm_compute. discriminate.
  - vm_compute. discriminate.
  - repeat constructor; eexists; vm_compute; reflexivity.
Defined.

(** ** [add_student_app] on its own *)

Lemma due_datapoints_loop_rows (sid st : Z) (url : string) (iv : timedelta)
  (dps : list Datapoint.t) :
  forall t,
    List.length (due_datapoints_loop sid st url iv dps t) = List.length dps /\
    Forall (fun d => DueDatapoint.simulator d = sid /\ DueDatapoint.student d = st)
           (due_datapoints_loop sid st url iv dps t).
Proof.
  induction dps as [|dp rest IH]; intro t; cbn [due_datapoints_loop].
  - split; [reflexivity|constructor].
  - destruct (IH (t + iv)) as [Hlen Hall]. split.
    + simpl. now rewrite Hlen.
    + constructor; [split; reflexivity|exact Hall].
Qed.

(** X11.  [add_student_app] is all or nothing, with or without [starts]:
    when it raises the world is as it was; when it returns there was at
    least one datapoint and the due table has grown by exactly one row per
    datapoint, all of them rows of this run for the student of the
    enrollment, and nothing else has changed. *)
Theorem add_student_app_all_or_nothing (a : StudentApp.t)
  (dps : list Datapoint.t) (starts : option datetime) (w : World)
  (r : outcome unit) (w' : World) :
  add_student_app a dps starts w = (r, w') ->
  match r with
  | Raise _ => w' = w
  | Return _ =>
      (1 <= List.length dps)%nat /\
      exists rows,
        w' = with_db (DB.with_due_datapoints (DB.due_datapoints (db w) ++ rows)
                                             (db w)) w /\
        List.length rows = List.length dps /\
        Forall (fun d => DueDatapoint.simulator d = Simulator.id (self w) /\
                         DueDatapoint.student d = StudentApp.student a) rows
  end.
Proof.
  intro H. destruct starts as [t|].
  - rewrite add_student_app_unfold in H.
    destruct (Simulator.ends (self w)) as [e|]; [|now inversion H].
    destruct (count dps =? 0) eqn:Hn; [now inversion H|].
    destruct (format _ _) as [u|x]; [|now inversion H].
    inversion H; subst. apply Z.eqb_neq in Hn.
    split; [now apply count_pos_length|].
    eexists. split; [reflexivity|]. apply due_datapoints_loop_rows.
  - unfold add_student_app, bind, datetime_now, get_self, datetime_sub, raise in H.
    simpl in H. destruct (Simulator.ends (self w)); now inversion H.
Qed.

Lemma add_student_app_all_or_nothing_witness :
  snd (add_student_app (StudentApp.Build 1 7 "alpha") [] (Some 0) Examples.world)
  = Examples.world.
Proof.
  apply (add_student_app_all_or_nothing (StudentApp.Build 1 7 "alpha") []
           (Some 0) Examples.world (Raise ZeroDivisionError)).
  vm_compute. reflexivity.
Defined.

(** X12.  [add_student_app] does not look at the rows already there: called
    a second time for the same enrollment it creates the same rows again,
    so the due table ends with two copies of them. *)
Theorem add_student_app_twice (a : StudentApp.t) (dps : list Datapoint.t)
  (t : datetime) (w w1 : World) :
  add_student_app a dps (Some t) w = (Return tt, w1) ->
  exists rows w2,
    (1 <= List.length rows)%nat /\
    DB.due_datapoints (db w1) = DB.due_datapoints (db w) ++ rows /\
    add_student_app a dps (Some t) w1 = (Return tt, w2) /\
    DB.due_datapoints (db w2) = DB.due_datapoints (db w) ++ rows ++ rows.
Proof.
  intro H. rewrite add_student_app_unfold in H.
  destruct (Simulator.ends (self w)) as [e|] eqn:He; [|discriminate H].
  destruct (count dps =? 0) eqn:Hn; [discriminate H|].
  destruct (format _ _) as [u|x] eqn:Hu; [|discriminate H].
  inversion H; subst. clear H.
  eexists. eexists. split; [|split; [reflexivity|split]].
  - rewrite (proj1 (due_datapoints_loop_rows _ _ _ _ _ _)).
    apply count_pos_length. now apply Z.eqb_neq.
  - rewrite add_student_app_unfold. simpl self. rewrite He, Hn, Hu. reflexivity.
  - simpl. now rewrite app_assoc.
Qed.

Lemma add_student_app_twice_witness :
  exists rows w2,
    (1 <= List.length rows)%nat /\
    DB.due_datapoints
      (db (snd (add_student_app (StudentApp.Build 1 7 "alpha")
                  (run_datapoints Examples.world) (Some 0) Examples.world)))
    = DB.due_datapoints (db Examples.world) ++ rows /\
    add_student_app (StudentApp.Build 1 7 "alpha")
      (run_datapoints Examples.world) (Some 0)
      (snd (add_student_app (StudentApp.Build 1 7 "alpha")
              (run_datapoints Examples.world) (Some 0) Examples.world))
    = (Return tt, w2) /\
    DB.due_datapoints (db w2)
    = DB.due_datapoints (db Examples.world) ++ rows ++ rows.
Proof.
  apply (add_student_app_twice (StudentApp.Build 1 7 "alpha")
           (run_datapoints Examples.world) 0 Examples.world).
  vm_compute. reflexivity.
Defined.

(** ** The URL of a due row *)

Lemma prepend_prepend_string (c : ascii) (p : string) (r : outcome string) :
  prepend c (prepend_string p r) = prepend_string (String c p) r.
Proof. destruct r; reflexivity. Qed.

Lemma format_from_brace_free_prefix (p rest app : string) :
  brace_free p = true ->
  format_from Literal (p ++ rest) app
  = prepend_string p (format_from Literal rest app).
Proof.
  induction p as [|c p IH]; intro Hp.
  - simpl. destruct (format_from Literal rest app); reflexivity.
  - simpl in Hp. apply andb_true_iff in Hp as [Hc Hp].
    apply andb_true_iff in Hc as [Ho Hc].
    apply negb_true_iff in Ho, Hc.
    cbn [String.append format_from]. rewrite Ho, Hc, (IH Hp).
    apply prepend_prepend_string.
Qed.

Lemma format_from_brace_free (s app : string) :
  brace_free s = true -> format_from Literal s app = Return s.
Proof.
  induction s as [|c s IH]; intro Hs; [reflexivity|].
  simpl in Hs. apply andb_true_iff in Hs as [Hc Hs].
  apply andb_true_iff in Hc as [Ho Hc].
  apply negb_true_iff in Ho, Hc.
  cbn [format_from]. now rewrite Ho, Hc, (IH Hs).
Qed.

(** [prefix{app_name}suffix], formatted. *)
Lemma format_placeholder (p s app : string) :
  brace_free p = true -> brace_free s = true ->
  format (p ++ "{app_name}" ++ s) app = Return (p ++ app ++ s)%string.
Proof.
  intros Hp Hs. unfold format.
  rewrite (format_from_brace_free_prefix p _ app Hp).
  cbn [String.append format_from Ascii.eqb Bool.eqb String.eqb].
  rewrite (format_from_brace_free s app Hs). reflexivity.
Qed.

Lemma string_length_append (a b : string) :
  String.length (a ++ b) = (String.length a + String.length b)%nat.
Proof. induction a as [|c a IH]; simpl; [reflexivity|now rewrite IH]. Qed.

Lemma string_append_cancel_l (p x y : string) :
  (p ++ x = p ++ y)%string -> x = y.
Proof.
  induction p as [|c p IH]; simpl; intro H; [exact H|].
  inversion H. now apply IH.
Qed.

Lemma string_append_cancel_r (s : string) :
  forall x y, (x ++ s = y ++ s)%string -> x = y.
Proof.
  induction x as [|c x IH]; intros [|d y] H; simpl in H.
  - reflexivity.
  - apply (f_equal String.length) in H. simpl in H.
    rewrite string_length_append in H. lia.
  - apply (f_equal String.length) in H. simpl in H.
    rewrite string_length_append in H. lia.
  - inversion H. f_equal. now apply IH.
Qed.

(** X13.  With an endpoint made of a text, the placeholder [{app_name}] and
    a text (no other brace), every due row a successful generation leaves
    for the run carries the endpoint with the [app_name] of an eligible
    enrollment of its student in place of the placeholder. *)
Theorem generated_urls (settings : Settings.t) (starts : datetime)
  (w w' : World) (p s : string) (d : DueDatapoint.t) :
  Simulator.endpoint (self w) = (p ++ "{app_name}" ++ s)%string ->
  brace_free p = true ->
  brace_free s = true ->
  create_due_datapoints settings starts w = (Return tt, w') ->
  In d (run_due w') ->
  exists a,
    In a (run_student_apps w) /\
    DueDatapoint.student d = StudentApp.student a /\
    DueDatapoint.url d = (p ++ StudentApp.app_name a ++ s)%string.
Proof.
  intros Hend Hp Hs H Hd.
  apply create_due_datapoints_Return in H
    as [e [He [Hn [Hiv [Hcap [Hres ->]]]]]].
  rewrite run_due_after_create in Hd.
  apply in_flat_map in Hd as [a [Ha Hd]].
  apply rows_for_In in Hd as [i [dp [Hdp ->]]].
  exists a. split; [exact Ha|]. split; [reflexivity|].
  cbn [DueDatapoint.url DueDatapoint.create]. unfold resolved_url.
  now rewrite Hend, (format_placeholder p s _ Hp Hs).
Qed.

Lemma generated_urls_witness :
  exists a,
    In a (run_student_apps Examples.world) /\
    9 = StudentApp.student a /\
    "https://beta.herokuapp.com/predict"%string
    = ("https://" ++ StudentApp.app_name a ++ ".herokuapp.com/predict")%string.
Proof.
  apply (generated_urls Examples.settings 0 Examples.world
           (snd (create_due_datapoints Examples.settings 0 Examples.world))
           "https://" ".herokuapp.com/predict"
           (DueDatapoint.create 1 11 9 0 "https://beta.herokuapp.com/predict")).
  - reflexivity.
  - reflexivity.
  - reflexivity.
  - vm_compute. reflexivity.
  - vm_compute. do 4 right. left. reflexivity.
Defined.

(** X14.  With such an endpoint two enrollments get the same URL only if
    they have the same [app_name]. *)
Theorem urls_tell_apps_apart (run : Simulator.t) (p s : string)
  (a b : StudentApp.t) :
  Simulator.endpoint run = (p ++ "{app_name}" ++ s)%string ->
  brace_free p = true ->
  brace_free s = true ->
  format (Simulator.endpoint run) (StudentApp.app_name a)
  = format (Simulator.endpoint run) (StudentApp.app_name b) ->
  StudentApp.app_name a = StudentApp.app_name b.
Proof.
  intros Hend Hp Hs H.
  rewrite Hend, !(format_placeholder p s _ Hp Hs) in H.
  inversion H as [H']. apply string_append_cancel_l in H'.
  now apply string_append_cancel_r in H'.
Qed.

Lemma urls_tell_apps_apart_witness :
  StudentApp.app_name (StudentApp.Build 1 7 "alpha")
  = StudentApp.app_name (StudentApp.Build 1 9 "alpha").
Proof.
  apply (urls_tell_apps_apart Examples.run "https://" ".herokuapp.com/predict").
  - reflexivity.
  - reflexivity.
  - reflexivity.
  - reflexivity.
Defined.

(** X15.  With an endpoint that holds no brace at all (no placeholder), a
    successful generation gives every due row of the run the endpoint
    itself as URL: all enrollments share it. *)
Theorem urls_without_placeholder (settings : Settings.t) (starts : datetime)
  (w w' : World) (d : DueDatapoint.t) :
  brace_free (Simulator.endpoint (self w)) = true ->
  create_due_datapoints settings starts w = (Return tt, w') ->
  In d (run_due w') ->
  DueDatapoint.url d = Simulator.endpoint (self w).
Proof.
  intros Hfree H Hd.
  apply create_due_datapoints_Return in H
    as [e [He [Hn [Hiv [Hcap [Hres ->]]]]]].
  rewrite run_due_after_create in Hd.
  apply in_flat_map in Hd as [a [Ha Hd]].
  apply rows_for_In in Hd as [i [dp [Hdp ->]]].
  cbn [DueDatapoint.url DueDatapoint.create]. unfold resolved_url, format.
  now rewrite (format_from_brace_free _ _ Hfree).
Qed.

Lemma urls_without_placeholder_witness :
  DueDatapoint.url
    (DueDatapoint.create 1 11 9 0 "https://example.org/predict")
  = Simulator.endpoint (self Examples.fixed_endpoint_world).
Proof.
  apply (urls_without_placeholder Examples.settings 0
           Examples.fixed_endpoint_world
           (snd (create_due_datapoints Examples.settings 0
                   Examples.fixed_endpoint_world))).
  - reflexivity.
  - vm_compute. reflexivity.
  - vm_compute. do 4 right. left. reflexivity.
Defined.

(** ** [reset] after [reset], [start] after [reset], [reset] after [start] *)

(** X16.  On a run asked to reset, a second [reset] and a [start] right
    after the first [reset] do nothing: the run is ['stopped'] and stays so
    until its status is set to ['start'] again. *)
Theorem reset_then_nothing (settings : Settings.t) (w : World) :
  Simulator.status (self w) = "reset"%string ->
  (reset ;; reset) w = reset w /\
  (reset ;; start settings) w = reset w.
Proof.
  intro Hst.
  assert (H : reset w = (Return tt, after_reset w)).
  { unfold reset, bind, get_self, due_datapoints_delete, modify_self, save.
    rewrite Hst. reflexivity. }
  split; unfold bind at 1; rewrite H.
  - unfold reset, bind, get_self. reflexivity.
  - rewrite start_unfold. reflexivity.
Qed.

Lemma reset_then_nothing_witness :
  (reset ;; reset) Examples.reset_world = reset Examples.reset_world /\
  (reset ;; start Examples.settings) Examples.reset_world
  = reset Examples.reset_world.
Proof.
  apply (reset_then_nothing Examples.settings Examples.reset_world).
  reflexivity.
Defined.

(** What [start] leaves on a run asked to start, whatever its outcome. *)
Lemma start_shape (settings : Settings.t) (w : World) (r : outcome unit)
  (w' : World) :
  Simulator.status (self w) = "start"%string ->
  start settings w = (r, w') ->
  exists o rows,
    self w' = Simulator.with_interval o
                (Simulator.with_status "started"
                   (Simulator.with_started (Some (clock w)) (self w))) /\
    DB.student_apps (db w') = DB.student_apps (db w) /\
    DB.datapoints (db w') = DB.datapoints (db w) /\
    DB.due_datapoints (db w') = other_due w ++ rows /\
    Forall (fun d => DueDatapoint.simulator d = Simulator.id (self w)) rows.
Proof.
  intros Hst H. rewrite start_unfold, Hst in H. simpl String.eqb in H.
  cbv iota in H. rewrite create_due_datapoints_unfold in H.
  assert (Hearly : forall x,
            (Raise x, after_delete (after_mark_started w)) = (r, w') ->
            exists o rows,
              self w' = Simulator.with_interval o
                          (Simulator.with_status "started"
                             (Simulator.with_started (Some (clock w)) (self w))) /\
              DB.student_apps (db w') = DB.student_apps (db w) /\
              DB.datapoints (db w') = DB.datapoints (db w) /\
              DB.due_datapoints (db w') = other_due w ++ rows /\
              Forall (fun d => DueDatapoint.simulator d = Simulator.id (self w)) rows).
  { intros x Hx. inversion Hx; subst.
    exists (Simulator.interval (self w)), [].
    split; [simpl; destruct (self w); reflexivity|].
    repeat split; [|constructor]. simpl. now rewrite app_nil_r. }
  destruct (Simulator.ends (self (after_mark_started w))) as [e|];
    [|eapply Hearly; exact H].
  cbv zeta in H.
  destruct (_ =? 0); [eapply Hearly; exact H|].
  destruct (_ =? 0); [eapply Hearly; exact H|].
  destruct (capacity_exceeded _ _ _); [eapply Hearly; exact H|].
  clear Hearly. apply for_each_add_shape in H as [rows [-> Hrows]].
  eexists. exists rows. split; [reflexivity|].
  repeat split. exact Hrows.
Qed.

(** X17.  A [reset] asked for after a [start], whatever the [start] did,
    returns normally and brings the due table back to the rows of the other
    runs, with the enrollments and the datapoints as before the [start]; it
    sets the status to ['stopped'] but does not clear the run's started
    timestamp, which stays at the time of the [start]. *)
Theorem reset_after_start (settings : Settings.t) (w : World)
  (r : outcome unit) (w1 : World) :
  Simulator.status (self w) = "start"%string ->
  start settings w = (r, w1) ->
  exists w2,
    reset (with_self (Simulator.with_status "reset" (self w1)) w1)
    = (Return tt, w2) /\
    DB.due_datapoints (db w2) = other_due w /\
    DB.student_apps (db w2) = DB.student_apps (db w) /\
    DB.datapoints (db w2) = DB.datapoints (db w) /\
    Simulator.status (self w2) = "stopped"%string /\
    Simulator.started (self w2) = Some (clock w) /\
    Simulator.interval (self w2) = Simulator.interval (self w1) /\
    saved_row w2 = Some (self w2).
Proof.
  intros Hst H.
  apply start_shape in H as [o [rows [Hself [Happs [Hdps [Hdue Hrows]]]]]];
    [|exact Hst].
  eexists. split; [|split; [|split; [|split; [|split; [|split; [|split]]]]]].
  - unfold reset, bind, get_self, due_datapoints_delete, modify_self, save.
    reflexivity.
  - simpl. rewrite Hdue, Hself. simpl.
    rewrite filter_app. unfold other_due.
    rewrite filter_other_of_other, (filter_other_rows _ _ Hrows).
    apply app_nil_r.
  - exact Happs.
  - exact Hdps.
  - reflexivity.
  - simpl. now rewrite Hself.
  - reflexivity.
  - exact (save_row_saved
             (Simulator.with_status "stopped"
                (Simulator.with_status "reset" (self w1)))
             (DB.simulators (db w1))).
Qed.

Lemma reset_after_start_witness :
  exists w2,
    reset (with_self (Simulator.with_status "reset"
                        (self (snd (start Examples.settings Examples.world))))
                     (snd (start Examples.settings Examples.world)))
    = (Return tt, w2) /\
    DB.due_datapoints (db w2) = other_due Examples.world /\
    DB.student_apps (db w2) = DB.student_apps (db Examples.world) /\
    DB.datapoints (db w2) = DB.datapoints (db Examples.world) /\
    Simulator.status (self w2) = "stopped"%string /\
    Simulator.started (self w2) = Some (clock Examples.world) /\
    Simulator.interval (self w2)
    = Simulator.interval (self (snd (start Examples.settings Examples.world))) /\
    saved_row w2 = Some (self w2).
Proof.
  apply (reset_after_start Examples.settings Examples.world (Return tt)).
  - reflexivity.
  - vm_compute. reflexivity.
Defined.

(** X18.  [start] is idempotent from any world: running it twice in a row
    is running it once, and a second [start] at any later time, after a
    first one that returned or raised, returns normally and changes
    nothing. *)
Theorem start_is_idempotent (settings : Settings.t) (w : World) :
  (start settings ;; start settings) w = start settings w /\
  forall c,
    start settings (with_clock c (snd (start settings w)))
    = (Return tt, with_clock c (snd (start settings w))).
Proof.
  destruct (start settings w) as [r w1] eqn:H.
  pose proof (start_leaves_no_request settings w r w1 H) as Hno.
  split.
  - unfold bind. rewrite H. destruct r as [[]|x]; [|reflexivity].
    rewrite start_unfold, Hno. reflexivity.
  - intro c. rewrite start_unfold. simpl. now rewrite Hno.
Qed.
